(** * Piece visibility of the Commons Edition (CE) platform, and the
      polling-trigger deduplication contract

    The first part embeds
    - [packages/server/api/src/app/ce/pieces/cm-piece-metadata-service-hooks.ts]
      (the [filterPieces] hook), and
    - [packages/server/api/src/app/ce/pieces/cm-platform-piece.controller.ts]
      (the admin routes under [/v1/ce/platform/pieces]) together with the
      service object [cmPlatformPieceService],
    over an explicit store of users and platforms.  The second part models the
    trigger poll coordinator, of which the repository only has callers. *)

From stdpp Require Import gmap strings list fin_maps.

Local Open Scope string_scope.

(** ** Shared types ([@activepieces/shared], as far as the CE code uses them) *)

Inductive FilteredPieceBehavior : Type := ALLOWED | BLOCKED.

Global Instance FilteredPieceBehavior_eq_dec : EqDecision FilteredPieceBehavior.
Proof. solve_decision. Defined.

(** The controller only ever names [PlatformRole.ADMIN]; any other role is
    kept by its tag. *)
Inductive PlatformRole : Type :=
  | ADMIN
  | OtherRole (tag : string).

Global Instance PlatformRole_eq_dec : EqDecision PlatformRole.
Proof. solve_decision. Defined.

(** [ErrorCode.AUTHORIZATION] is thrown by the controller itself;
    [ENTITY_NOT_FOUND] stands for what the [...OrThrow] / [...OrFail] look-ups
    of the host services throw. *)
Inductive ErrorCode : Type := AUTHORIZATION | ENTITY_NOT_FOUND.

Global Instance ErrorCode_eq_dec : EqDecision ErrorCode.
Proof. solve_decision. Defined.

(** A piece as the hook sees it: [name] is the only field it reads, the rest
    is carried through untouched. *)
Record PieceMetadata : Type := {
  name : string;
  displayName : string;
  version : string;
}.

Global Instance PieceMetadata_eq_dec : EqDecision PieceMetadata.
Proof. solve_decision. Defined.

Record User : Type := {
  userId : string;
  platformRole : PlatformRole;
}.

(** The platform row.  The CE code guards both piece fields against a missing
    value ([platform.filteredPieceNames || []],
    [platform.filteredPieceBehavior || FilteredPieceBehavior.BLOCKED]), hence
    the options. *)
Record Platform : Type := {
  id : string;
  platformName : string;
  managePiecesEnabled : bool;
  filteredPieceNames : option (list string);
  filteredPieceBehavior : option FilteredPieceBehavior;
}.

Global Instance Platform_eq_dec : EqDecision Platform.
Proof. solve_decision. Defined.

Record Database : Type := {
  users : gmap string User;
  platforms : gmap string Platform;
}.

(** ** Asynchronous, throwing code as a state and error monad *)

Inductive Result (A : Type) : Type :=
  | Ok (value : A)
  | Thrown (code : ErrorCode).
Arguments Ok {A} value.
Arguments Thrown {A} code.

Definition Async (A : Type) : Type := Database → Result A * Database.

Definition resolved {A} (a : A) : Async A := λ db, (Ok a, db).

Definition throw {A} (code : ErrorCode) : Async A := λ db, (Thrown code, db).

Definition await {A B} (m : Async A) (k : A → Async B) : Async B :=
  λ db, match m db with
        | (Ok a, db') => k a db'
        | (Thrown code, db') => (Thrown code, db')
        end.

(** [x ← m; k] reads [const x = await m; k]. *)
Global Instance Async_ret : MRet Async := @resolved.
Global Instance Async_bind : MBind Async := λ A B k m, await m k.

(** ** Host services the CE code calls *)

(** Modelled from the spec: [userService.getOneOrFail] belongs to the host
    server and its source is missing; it returns the user with the given id and fails when there is none. *)
Definition userService_getOneOrFail (uid : string) : Async User :=
  λ db, match users db !! uid with
        | Some u => (Ok u, db)
        | None => (Thrown ENTITY_NOT_FOUND, db)
        end.

(** Modelled from the spec: [platformService.getOneOrThrow] belongs to the
    host server and its source is missing; a missing platform record is surfaced to the caller immediately. *)
Definition platformService_getOneOrThrow (platformId : string) : Async Platform :=
  λ db, match platforms db !! platformId with
        | Some p => (Ok p, db)
        | None => (Thrown ENTITY_NOT_FOUND, db)
        end.

(** The argument object of [platformService.update]: [id] and the fields the
    caller lists; a field the caller leaves out is [None]. *)
Record UpdateParams : Type := {
  upd_id : string;
  upd_filteredPieceNames : option (list string);
  upd_filteredPieceBehavior : option FilteredPieceBehavior;
}.

Definition applyUpdate (params : UpdateParams) (p : Platform) : Platform :=
  {| id := id p;
     platformName := platformName p;
     managePiecesEnabled := managePiecesEnabled p;
     filteredPieceNames :=
       match upd_filteredPieceNames params with
       | Some names => Some names
       | None => filteredPieceNames p
       end;
     filteredPieceBehavior :=
       match upd_filteredPieceBehavior params with
       | Some b => Some b
       | None => filteredPieceBehavior p
       end |}.

(** Modelled from the spec: [platformService.update] belongs to the host
    server and its source is missing; it replaces, in the record of platform [id], the fields present in its
    argument and keeps the others, and fails when there is no such platform. *)
Definition platformService_update (params : UpdateParams) : Async unit :=
  λ db, match platforms db !! upd_id params with
        | Some p =>
            (Ok tt, {| users := users db;
                       platforms := <[upd_id params := applyUpdate params p]> (platforms db) |})
        | None => (Thrown ENTITY_NOT_FOUND, db)
        end.

(** ** [cm-piece-metadata-service-hooks.ts] *)

(** What [filterPieces] destructures from its parameter; [searchQuery] stands
    for what only the default hook reads. *)
Record FilterPiecesParams : Type := {
  platformId : option string;
  includeHidden : bool;
  pieces : list PieceMetadata;
  searchQuery : option string;
}.

(** The interface [PieceMetadataServiceHooks]. *)
Record PieceMetadataServiceHooks : Type := {
  filterPieces : FilterPiecesParams → Async (list PieceMetadata);
}.

(** [Array.prototype.includes] on strings. *)
Definition includes (l : list string) (x : string) : bool := bool_decide (x ∈ l).

(** [cmPieceMetadataServiceHooks]; [defaultPieceHooks] is imported from the
    host and taken as a parameter. *)
Definition cmPieceMetadataServiceHooks (defaultPieceHooks : PieceMetadataServiceHooks)
    : PieceMetadataServiceHooks :=
  {| filterPieces := λ params,
       match includeHidden params, platformId params with
       | true, _ | _, None => filterPieces defaultPieceHooks params
       | false, Some platformId =>
           platform ← platformService_getOneOrThrow platformId;
           match filteredPieceNames platform with
           | None | Some [] => resolved (pieces params)
           | Some names =>
               let filterPredicate : PieceMetadata → bool :=
                 if decide (filteredPieceBehavior platform = Some ALLOWED)
                 then λ p, includes names (name p)
                 else λ p, negb (includes names (name p)) in
               resolved (List.filter filterPredicate (pieces params))
           end
       end |}.

(** ** [cm-platform-piece.controller.ts] *)

Record Principal : Type := {
  principal_id : string;
  principal_platform_id : string;   (* request.principal.platform.id *)
}.

Record FastifyRequest (Params Body : Type) : Type := {
  principal : Principal;
  params : Params;
  body : Body;
}.
Arguments principal {Params Body} _.
Arguments params {Params Body} _.
Arguments body {Params Body} _.

Record PieceNameParams : Type := { pieceName : string }.
Record VisibleBody : Type := { visible : bool }.

(** The body of [UpdateFilteredPiecesRequest], which is also what the GET
    route answers. *)
Record FilteredPiecesConfig : Type := {
  cfg_filteredPieceNames : list string;
  cfg_filteredPieceBehavior : FilteredPieceBehavior;
}.

Definition UpdatePieceVisibilityRequest : Type := FastifyRequest PieceNameParams VisibleBody.
Definition UpdateFilteredPiecesRequest : Type := FastifyRequest unit FilteredPiecesConfig.

Record SuccessResponse : Type := { success : bool }.

Record ToggleResponse : Type := {
  toggle_success : bool;
  toggle_filteredPieceNames : list string;
}.

(** Helper function to verify platform admin. *)
Definition isPlatformAdmin {Params Body} (request : FastifyRequest Params Body) : Async bool :=
  user ← userService_getOneOrFail (principal_id (principal request));
  mret (bool_decide (platformRole user = ADMIN)).

(** [platform.filteredPieceNames || []] and
    [platform.filteredPieceBehavior || FilteredPieceBehavior.BLOCKED]. *)
Definition namesOrEmpty (platform : Platform) : list string :=
  default [] (filteredPieceNames platform).

Definition behaviorOrBlocked (platform : Platform) : FilteredPieceBehavior :=
  default BLOCKED (filteredPieceBehavior platform).

(** The block that computes [updatedNames] from [currentNames]; it is the same
    text in the route [PATCH /:pieceName] (lines 127-143) and in
    [togglePieceVisibility] (lines 196-212). *)
Definition updatedNamesOf (behavior : FilteredPieceBehavior) (currentNames : list string)
    (pieceName : string) (visible : bool) : list string :=
  let updatedNames := currentNames in
  if decide (behavior = BLOCKED) then
    if negb visible && negb (includes updatedNames pieceName)
    then updatedNames ++ [pieceName]
    else if visible && includes updatedNames pieceName
    then List.filter (λ name, negb (bool_decide (name = pieceName))) updatedNames
    else updatedNames
  else
    if visible && negb (includes updatedNames pieceName)
    then updatedNames ++ [pieceName]
    else if negb visible && includes updatedNames pieceName
    then List.filter (λ name, negb (bool_decide (name = pieceName))) updatedNames
    else updatedNames.

(** [router.get('/')]: get filtered pieces configuration. *)
Definition router_get (request : FastifyRequest unit unit) : Async FilteredPiecesConfig :=
  isAdmin ← isPlatformAdmin request;
  if negb isAdmin then throw AUTHORIZATION
  else
    let platformId := principal_platform_id (principal request) in
    platform ← platformService_getOneOrThrow platformId;
    mret {| cfg_filteredPieceNames := namesOrEmpty platform;
            cfg_filteredPieceBehavior := behaviorOrBlocked platform |}.

(** [router.patch('/')]: update filtered pieces. *)
Definition router_patch (request : UpdateFilteredPiecesRequest) : Async SuccessResponse :=
  isAdmin ← isPlatformAdmin request;
  if negb isAdmin then throw AUTHORIZATION
  else
    let platformId := principal_platform_id (principal request) in
    _ ← platformService_update
          {| upd_id := platformId;
             upd_filteredPieceNames := Some (cfg_filteredPieceNames (body request));
             upd_filteredPieceBehavior := Some (cfg_filteredPieceBehavior (body request)) |};
    mret {| success := true |}.

(** [router.patch('/:pieceName')]: toggle visibility for a single piece. *)
Definition router_patch_pieceName (request : UpdatePieceVisibilityRequest) : Async ToggleResponse :=
  isAdmin ← isPlatformAdmin request;
  if negb isAdmin then throw AUTHORIZATION
  else
    let platformId := principal_platform_id (principal request) in
    let pieceName := pieceName (params request) in
    let visible := visible (body request) in
    platform ← platformService_getOneOrThrow platformId;
    let currentNames := namesOrEmpty platform in
    let behavior := behaviorOrBlocked platform in
    let updatedNames := updatedNamesOf behavior currentNames pieceName visible in
    _ ← platformService_update
          {| upd_id := platformId;
             upd_filteredPieceNames := Some updatedNames;
             upd_filteredPieceBehavior := None |};
    mret {| toggle_success := true; toggle_filteredPieceNames := updatedNames |}.

(** *** The service object [cmPlatformPieceService] *)

Definition getFilteredPiecesConfig (platformId : string) : Async FilteredPiecesConfig :=
  platform ← platformService_getOneOrThrow platformId;
  mret {| cfg_filteredPieceNames := namesOrEmpty platform;
          cfg_filteredPieceBehavior := behaviorOrBlocked platform |}.

Definition updateFilteredPiecesConfig (platformId : string)
    (filteredPieceNames : list string) (filteredPieceBehavior : FilteredPieceBehavior)
    : Async SuccessResponse :=
  _ ← platformService_update
        {| upd_id := platformId;
           upd_filteredPieceNames := Some filteredPieceNames;
           upd_filteredPieceBehavior := Some filteredPieceBehavior |};
  mret {| success := true |}.

Definition togglePieceVisibility (platformId : string) (pieceName : string) (visible : bool)
    : Async ToggleResponse :=
  platform ← platformService_getOneOrThrow platformId;
  let currentNames := namesOrEmpty platform in
  let behavior := behaviorOrBlocked platform in
  let updatedNames := updatedNamesOf behavior currentNames pieceName visible in
  _ ← platformService_update
        {| upd_id := platformId;
           upd_filteredPieceNames := Some updatedNames;
           upd_filteredPieceBehavior := None |};
  mret {| toggle_success := true; toggle_filteredPieceNames := updatedNames |}.

(** ** The visibility shown by the admin UI

    [developer_notes/implementation_notes_pieces_management.md], section 1
    (the fix in [piece-actions.tsx]):
    [filtered = platform.filteredPieceNames.includes(pieceName)],
    [behavior = platform.filteredPieceBehavior || 'BLOCKED'],
    [isVisible = behavior === 'BLOCKED' ? !filtered : filtered].
    A missing list is read as the empty one, as the server does. *)
Definition isVisible (platform : Platform) (pieceName : string) : bool :=
  let filtered := includes (namesOrEmpty platform) pieceName in
  let behavior := behaviorOrBlocked platform in
  if decide (behavior = BLOCKED) then negb filtered else filtered.

(** ** Notions used to state the properties *)

(** The predicate [filterPieces] ends up applying to a piece name, with its
    early return for a missing or empty list. *)
Definition shownTo (platform : Platform) (n : string) : bool :=
  match filteredPieceNames platform with
  | None | Some [] => true
  | Some names =>
      if decide (filteredPieceBehavior platform = Some ALLOWED)
      then includes names n else negb (includes names n)
  end.

(** Removing every occurrence of a name, and adding a name that is absent. *)
Definition removeName (l : list string) (p : string) : list string :=
  List.filter (λ n, negb (bool_decide (n = p))) l.

Definition addName (l : list string) (p : string) : list string :=
  if includes l p then l else l ++ [p].

(** Whether the toggle leaves the name in the list. *)
Definition listedAfter (behavior : FilteredPieceBehavior) (visible : bool) : bool :=
  match behavior with
  | BLOCKED => negb visible
  | ALLOWED => visible
  end.

(** The platform record after an update that lists only [filteredPieceNames]. *)
Definition withNames (platform : Platform) (names : list string) : Platform :=
  applyUpdate {| upd_id := id platform;
                 upd_filteredPieceNames := Some names;
                 upd_filteredPieceBehavior := None |} platform.

Definition toggledNames (platform : Platform) (p : string) (v : bool) : list string :=
  updatedNamesOf (behaviorOrBlocked platform) (namesOrEmpty platform) p v.

(** What an operation on platform [pid] may have changed when it only wrote
    [filteredPieceNames]: no user, no other platform, and of platform [pid]
    neither [filteredPieceBehavior] nor any other field. *)
Definition onlyNamesWritten (before after : Database) (pid : string) : Prop :=
  users after = users before
  ∧ (∀ other, other ≠ pid → platforms after !! other = platforms before !! other)
  ∧ match platforms before !! pid with
    | Some platform =>
        ∃ platform',
          platforms after !! pid = Some platform'
          ∧ id platform' = id platform
          ∧ platformName platform' = platformName platform
          ∧ managePiecesEnabled platform' = managePiecesEnabled platform
          ∧ filteredPieceBehavior platform' = filteredPieceBehavior platform
    | None => platforms after !! pid = None
    end.

Definition namesOnlyUpdate (pid : string) (names : list string) : UpdateParams :=
  {| upd_id := pid; upd_filteredPieceNames := Some names; upd_filteredPieceBehavior := None |}.

(** ** Sample data: the platform and the pieces of the specification's scenarios *)

Definition piece (n : string) : PieceMetadata :=
  {| name := n; displayName := n; version := "0.0.1" |}.

Definition samplePlatform (names : option (list string))
    (behavior : option FilteredPieceBehavior) : Platform :=
  {| id := "pl1"; platformName := "Commons"; managePiecesEnabled := true;
     filteredPieceNames := names; filteredPieceBehavior := behavior |}.

Definition sampleDb (names : option (list string))
    (behavior : option FilteredPieceBehavior) : Database :=
  {| users := {[ "admin" := {| userId := "admin"; platformRole := ADMIN |};
                 "member" := {| userId := "member"; platformRole := OtherRole "MEMBER" |} ]};
     platforms := {[ "pl1" := samplePlatform names behavior ]} |}.

(** A default hook that hands the pieces back as they are. *)
Definition passThroughHooks : PieceMetadataServiceHooks :=
  {| filterPieces := λ params, mret (pieces params) |}.

Definition projectView (ps : list PieceMetadata) : FilterPiecesParams :=
  {| platformId := Some "pl1"; includeHidden := false; pieces := ps; searchQuery := None |}.

Definition adminToggle (p : string) (v : bool) : UpdatePieceVisibilityRequest :=
  {| principal := {| principal_id := "admin"; principal_platform_id := "pl1" |};
     params := {| pieceName := p |};
     body := {| visible := v |} |}.

(** ** The trigger poll coordinator

    The repository calls [pollingHelper.onEnable], [.onDisable] and [.poll] of
    [@activepieces/pieces-common] (developer notes, custom-piece plan) but the
    helper's own source is missing; what follows is written from the
    specification's section 4.2. *)
Module TriggerPoll.

(** Modelled from the spec: the enum [pollingStrategy] of a trigger
    registration (section 3).  Both strategies run the same algorithm; they
    differ in what the key is (epoch milliseconds, or an opaque ordered key). *)
Inductive PollingStrategy : Type := TIMEBASED | LAST_ITEM.

Section Model.
(** The ordering key, its comparison ([key_le a b]: [a] is equal to or
    ordinally before [b]) and the opaque payload. *)
Context {K P : Type} (key_le : K → K → bool).

(** Modelled from the spec: [TriggerRegistration] (section 3), the pollingHelper's
    durable record [{triggerId, pollingStrategy, watermark, enabled}]. *)
Record TriggerRegistration : Type := {
  triggerId : string;
  pollingStrategy : PollingStrategy;
  watermark : K;
  enabled : bool;
}.

(** Modelled from the spec: [PolledItem] (section 3), produced by the
    piece's fetch implementation that pollingHelper calls. *)
Record PolledItem : Type := {
  itemKey : K;
  payload : P;
}.

(** Modelled from the spec: the two collaborators of one scheduled tick of
    pollingHelper's poll: the external fetch, which may fail, and [emit],
    the hand-off to flow execution, which answers ok or error per item. *)
Inductive FetchResult : Type :=
  | FetchError
  | Fetched (items : list PolledItem).

(** Modelled from the spec: what the environment answers during one tick of
    pollingHelper's poll, the fetch result and the outcome of [emit] per item. *)
Record Tick : Type := {
  fetch : FetchResult;
  emit : PolledItem → bool;
}.

(** Modelled from the spec: [max] on keys, for step 6 of pollingHelper's poll. *)
Definition key_max (a b : K) : K := if key_le a b then b else a.

(** Modelled from the spec: step 3 of pollingHelper's poll, discard items
    with [itemKey <= watermark]. *)
Definition discardSeen (wm : K) (items : list PolledItem) : list PolledItem :=
  List.filter (λ it, negb (key_le (itemKey it) wm)) items.

(** Modelled from the spec: step 4 of pollingHelper's poll, sort ascending
    by [itemKey], ties in stable input order (an insertion sort that puts an
    item before the first later item that is not smaller). *)
Fixpoint insertByKey (it : PolledItem) (sorted : list PolledItem) : list PolledItem :=
  match sorted with
  | [] => [it]
  | x :: rest =>
      if key_le (itemKey it) (itemKey x) then it :: x :: rest
      else x :: insertByKey it rest
  end.

Definition sortByKey (items : list PolledItem) : list PolledItem :=
  foldr insertByKey [] items.

(** Modelled from the spec: steps 5 and 6 of pollingHelper's poll.  Items are
    handed to [emit] in order; the watermark becomes the maximum of the
    previous one and the keys handed off; at the first item [emit] refuses,
    processing stops and the watermark stays at the last confirmed one. *)
Fixpoint emitInOrder (emit : PolledItem → bool) (wm : K) (items : list PolledItem)
    : list PolledItem * K :=
  match items with
  | [] => ([], wm)
  | it :: rest =>
      if emit it then
        let '(out, wm') := emitInOrder emit (key_max (itemKey it) wm) rest in
        (it :: out, wm')
      else ([], wm)
  end.

(** Modelled from the spec: what one tick of pollingHelper's poll leaves
    behind, the items handed to the flow runner and the registration as
    committed. *)
Record PollOutcome : Type := {
  emitted : list PolledItem;
  committed : TriggerRegistration;
}.

(** Modelled from the spec: pollingHelper's poll for one scheduled tick
    (section 4.2).  A disabled trigger is not polled; a failed fetch and an
    empty fetch leave the watermark unchanged. *)
Definition poll (reg : TriggerRegistration) (tick : Tick) : PollOutcome :=
  if enabled reg then
    match fetch tick with
    | FetchError => {| emitted := []; committed := reg |}
    | Fetched items =>
        let '(out, wm') :=
          emitInOrder (emit tick) (watermark reg)
                      (sortByKey (discardSeen (watermark reg) items)) in
        {| emitted := out;
           committed := {| triggerId := triggerId reg;
                           pollingStrategy := pollingStrategy reg;
                           watermark := wm';
                           enabled := enabled reg |} |}
    end
  else {| emitted := []; committed := reg |}.

(** Modelled from the spec: pollingHelper's polls of one trigger never
    overlap (section 5), so a history is a list of ticks run one after the
    other; [pollLog] is what each of them emitted and [pollAll] the
    registration after the last. *)
Fixpoint pollAll (reg : TriggerRegistration) (ticks : list Tick) : TriggerRegistration :=
  match ticks with
  | [] => reg
  | t :: ts => pollAll (committed (poll reg t)) ts
  end.

Fixpoint pollLog (reg : TriggerRegistration) (ticks : list Tick) : list (list PolledItem) :=
  match ticks with
  | [] => []
  | t :: ts => emitted (poll reg t) :: pollLog (committed (poll reg t)) ts
  end.
End Model.

Arguments TriggerRegistration K : clear implicits.
Arguments PolledItem K P : clear implicits.
Arguments FetchResult K P : clear implicits.
Arguments Tick K P : clear implicits.
Arguments PollOutcome K P : clear implicits.

(** *** Sample data: a TIMEBASED trigger, keys are epoch milliseconds *)

Definition item (k : Z) : PolledItem Z string := {| itemKey := k; payload := "event" |}.

Definition registration (wm : Z) : TriggerRegistration Z :=
  {| triggerId := "new_item"; pollingStrategy := TIMEBASED; watermark := wm; enabled := true |}.

Definition fetched (keys : list Z) (emit : PolledItem Z string → bool) : Tick Z string :=
  {| fetch := Fetched (item <$> keys); emit := emit |}.

Definition emitOk : PolledItem Z string → bool := λ _, true.

Definition emitFailsOn (k : Z) : PolledItem Z string → bool :=
  λ it, negb (itemKey it =? k)%Z.

End TriggerPoll.

(** ** More of [cm-platform-piece.controller.ts] *)

(** [router.post('/sync')]: sync pieces from activepieces.  The call
    [pieceSyncService(fastify.log).sync()] goes to the host's piece sync
    service, which is taken as the parameter [sync]. *)
Definition router_post_sync (sync : Async unit) (request : FastifyRequest unit unit)
    : Async SuccessResponse :=
  isAdmin ← isPlatformAdmin request;
  if negb isAdmin then throw AUTHORIZATION
  else
    _ ← sync;
    mret {| success := true |}.

(** The list stored for platform [pid], read as the server reads it. *)
Definition storedNames (db : Database) (pid : string) : option (list string) :=
  namesOrEmpty <$> platforms db !! pid.

(** ** [cm-flags.hooks.ts] *)

(** A flag value: [string | boolean | number | Record<string, unknown>]; the
    fields of a record value are kept as text. *)
Inductive FlagValue : Type :=
  | FlagString (s : string)
  | FlagBoolean (b : bool)
  | FlagNumber (n : Z)
  | FlagRecord (fields : list (string * string)).

(** [cmFlagsHooks.modify({ flags, request })].  The look-up
    [platformUtils.getPlatformIdForRequest] belongs to the host and is taken
    as a parameter. *)
Definition cmFlagsHooks_modify {Request : Type}
    (getPlatformIdForRequest : Request → Async (option string))
    (flags : gmap string FlagValue) (request : Request) : Async (gmap string FlagValue) :=
  let modifiedFlags := flags in
  platformId ← getPlatformIdForRequest request;
  match platformId with
  | None => mret modifiedFlags
  | Some platformId =>
      platform ← platformService_getOneOrThrow platformId;
      let modifiedFlags := <["MANAGE_PIECES_ENABLED" := FlagBoolean true]> modifiedFlags in
      mret modifiedFlags
  end.

(** ** [cm-platform-project.service.ts] and [cm-platform-project.controller.ts] *)
Module Projects.

Inductive NotificationStatus : Type := NEVER | ALWAYS | NEW_ISSUE.

(** The service only names [PiecesFilterType.NONE]. *)
Inductive PiecesFilterType : Type :=
  | NONE
  | OtherFilterType (tag : string).

(** A project row, with the columns the service reads or writes; the base
    columns [created] and [updated] are maintained by the repository and are
    left out. *)
Record Project : Type := {
  id : string;
  ownerId : string;
  displayName : string;
  platformId : string;
  externalId : option string;
  notifyStatus : NotificationStatus;
  releasesEnabled : bool;
  deleted : option string;
}.

Global Instance NotificationStatus_eq_dec : EqDecision NotificationStatus.
Proof. solve_decision. Defined.

Global Instance Project_eq_dec : EqDecision Project.
Proof. solve_decision. Defined.

Record ProjectPlan : Type := {
  plan_id : string;
  plan_created : string;
  plan_updated : string;
  plan_projectId : string;
  plan_name : string;
  piecesFilterType : PiecesFilterType;
  plan_pieces : list string;
  plan_tasks : option Z;
  plan_aiTokens : option Z;
}.

Record ProjectUsage : Type := {
  usage_tasks : Z;
  teamMembers : Z;
  usage_aiTokens : Z;
  nextLimitResetDate : string;
}.

Record ProjectAnalytics : Type := {
  totalUsers : Z;
  activeUsers : Z;
  totalFlows : Z;
  activeFlows : Z;
}.

(** [{ ...project, plan, usage, analytics }]. *)
Record ProjectWithLimits : Type := {
  project : Project;
  plan : ProjectPlan;
  usage : ProjectUsage;
  analytics : ProjectAnalytics;
}.

Record CmCreateProjectRequest : Type := {
  create_ownerId : string;
  create_displayName : string;
  create_platformId : string;
  create_externalId : option string;
  create_notifyStatus : option NotificationStatus;
}.

Record CmUpdateProjectRequest : Type := {
  update_displayName : option string;
  update_externalId : option string;
  update_notifyStatus : option NotificationStatus;
}.

(** The user row as this controller reads it ([platformRole], [platformId]). *)
Record User : Type := {
  userId : string;
  platformRole : PlatformRole;
  user_platformId : option string;
}.

(** The store, and how many times the clock and the id generator have been
    consulted. *)
Record World : Type := {
  w_users : gmap string User;
  w_platforms : gmap string Platform;
  w_projects : gmap string Project;
  clockReads : nat;
  idsDrawn : nat;
}.

(** What the runtime supplies: the text of the [n]-th reading of the clock
    ([new Date().toISOString()]), the [n]-th identifier of [apId()], and the
    first day of the month after the given year and month readings
    ([new Date(year, month + 1, 1).toISOString()]). *)
Record Runtime : Type := {
  isoAt : nat → string;
  idAt : nat → string;
  firstOfNextMonth : string → string → string;
}.

Definition Task (A : Type) : Type := World → Result A * World.

Definition settled {A} (a : A) : Task A := λ w, (Ok a, w).

Definition raise {A} (code : ErrorCode) : Task A := λ w, (Thrown code, w).

Definition andThen {A B} (m : Task A) (k : A → Task B) : Task B :=
  λ w, match m w with
       | (Ok a, w') => k a w'
       | (Thrown code, w') => (Thrown code, w')
       end.

Global Instance Task_ret : MRet Task := @settled.
Global Instance Task_bind : MBind Task := λ A B k m, andThen m k.

(** [Promise.all(xs.map(f))] for an [f] that does not suspend: the calls run
    in list order. *)
Fixpoint promiseAllMap {A B} (f : A → Task B) (xs : list A) : Task (list B) :=
  match xs with
  | [] => mret []
  | x :: rest =>
      y ← f x;
      ys ← promiseAllMap f rest;
      mret (y :: ys)
  end.

(** [new Date().toISOString()] and [apId()]. *)
Definition newDateISO (rt : Runtime) : Task string :=
  λ w, (Ok (isoAt rt (clockReads w)),
        {| w_users := w_users w; w_platforms := w_platforms w; w_projects := w_projects w;
           clockReads := S (clockReads w); idsDrawn := idsDrawn w |}).

Definition apId (rt : Runtime) : Task string :=
  λ w, (Ok (idAt rt (idsDrawn w)),
        {| w_users := w_users w; w_platforms := w_platforms w; w_projects := w_projects w;
           clockReads := clockReads w; idsDrawn := S (idsDrawn w) |}).

(** Modelled from the spec: [userService.getOneOrFail] and
    [platformService.getOneOrThrow] of the host server, whose source is
    missing, as for the piece routes. *)
Definition userService_getOneOrFail (uid : string) : Task User :=
  λ w, match w_users w !! uid with
       | Some u => (Ok u, w)
       | None => (Thrown ENTITY_NOT_FOUND, w)
       end.

Definition platformService_getOneOrThrow (pid : string) : Task Platform :=
  λ w, match w_platforms w !! pid with
       | Some p => (Ok p, w)
       | None => (Thrown ENTITY_NOT_FOUND, w)
       end.

(** *** The project repository

    [projectRepo()] is the host's TypeORM repository of the project table,
    keyed by [id]; its source is missing. *)

Definition withProjects (w : World) (ps : gmap string Project) : World :=
  {| w_users := w_users w; w_platforms := w_platforms w; w_projects := ps;
     clockReads := clockReads w; idsDrawn := idsDrawn w |}.

(** Modelled from the spec: [projectRepo().findBy({ platformId, deleted: IsNull() })],
    the rows of the platform that are not deleted. *)
Definition projectRepo_findBy (pid : string) : Task (list Project) :=
  λ w, (Ok (List.filter (λ p, bool_decide (platformId p = pid)
                              && bool_decide (deleted p = None))
                        (map_to_list (w_projects w)).*2), w).

(** Modelled from the spec: [projectRepo().findOneBy({ id, deleted: IsNull() })],
    the row with that id if it is not deleted, else null. *)
Definition projectRepo_findOneBy (projectId : string) : Task (option Project) :=
  λ w, (Ok (match w_projects w !! projectId with
            | Some p => if bool_decide (deleted p = None) then Some p else None
            | None => None
            end), w).

(** Modelled from the spec: [projectRepo().findOneByOrFail({ id, deleted: IsNull() })],
    the same look-up, failing when there is no such row. *)
Definition projectRepo_findOneByOrFail (projectId : string) : Task Project :=
  found ← projectRepo_findOneBy projectId;
  match found with
  | Some p => mret p
  | None => raise ENTITY_NOT_FOUND
  end.

(** Modelled from the spec: [projectRepo().save(row)], which stores the row
    under its id and returns it. *)
Definition projectRepo_save (p : Project) : Task Project :=
  λ w, (Ok p, withProjects w (<[id p := p]> (w_projects w))).

(** The column values of a [projectRepo().update] call; a column the caller
    leaves out is [None]. *)
Record ProjectColumns : Type := {
  set_displayName : option string;
  set_externalId : option string;
  set_notifyStatus : option NotificationStatus;
  set_deleted : option string;
}.

Definition setColumns (cols : ProjectColumns) (p : Project) : Project :=
  {| id := id p;
     ownerId := ownerId p;
     displayName := default (displayName p) (set_displayName cols);
     platformId := platformId p;
     externalId := match set_externalId cols with
                   | Some e => Some e
                   | None => externalId p
                   end;
     notifyStatus := default (notifyStatus p) (set_notifyStatus cols);
     releasesEnabled := releasesEnabled p;
     deleted := match set_deleted cols with
                | Some d => Some d
                | None => deleted p
                end |}.

(** Modelled from the spec: [projectRepo().update({ id }, columns)], which
    sets the given columns in the row with that id, deleted or not. *)
Definition projectRepo_update (projectId : string) (cols : ProjectColumns) : Task unit :=
  λ w, (Ok tt, withProjects w (alter (setColumns cols) projectId (w_projects w))).

(** *** [cmPlatformProjectService]

    Its methods [list], [getById], [create], [update] and [delete] carry the
    prefix [cm_] here. *)

Definition enrichProjectWithLimits (rt : Runtime) (project : Project) : Task ProjectWithLimits :=
  created ← newDateISO rt;
  updated ← newDateISO rt;
  let defaultPlan :=
    {| plan_id := "cm_default_plan_" +:+ id project;
       plan_created := created;
       plan_updated := updated;
       plan_projectId := id project;
       plan_name := "Community Plan";
       piecesFilterType := NONE;
       plan_pieces := ["@activepieces/piece-utility-ai";
                       "@activepieces/piece-image-ai";
                       "@activepieces/piece-text-ai"];
       plan_tasks := None;
       plan_aiTokens := None |} in
  year ← newDateISO rt;
  month ← newDateISO rt;
  let defaultUsage :=
    {| usage_tasks := 0; teamMembers := 0; usage_aiTokens := 0;
       nextLimitResetDate := firstOfNextMonth rt year month |} in
  let defaultAnalytics :=
    {| totalUsers := 0; activeUsers := 0; totalFlows := 0; activeFlows := 0 |} in
  mret {| project := project; plan := defaultPlan;
          usage := defaultUsage; analytics := defaultAnalytics |}.

Definition enrichProjectsWithLimits (rt : Runtime) (projects : list Project)
    : Task (list ProjectWithLimits) :=
  promiseAllMap (enrichProjectWithLimits rt) projects.

Definition cm_list (rt : Runtime) (platformId : string) : Task (list ProjectWithLimits) :=
  projects ← projectRepo_findBy platformId;
  enrichProjectsWithLimits rt projects.

Definition cm_getById (rt : Runtime) (projectId : string) : Task (option ProjectWithLimits) :=
  project ← projectRepo_findOneBy projectId;
  match project with
  | None => mret None
  | Some project =>
      enriched ← enrichProjectWithLimits rt project;
      mret (Some enriched)
  end.

Definition cm_create (rt : Runtime) (params : CmCreateProjectRequest) : Task ProjectWithLimits :=
  newId ← apId rt;
  let newProject :=
    {| id := newId;
       ownerId := create_ownerId params;
       displayName := create_displayName params;
       platformId := create_platformId params;
       externalId := create_externalId params;
       notifyStatus := default ALWAYS (create_notifyStatus params);
       releasesEnabled := false;
       deleted := None |} in
  createdProject ← projectRepo_save newProject;
  enrichProjectWithLimits rt createdProject.

Definition cm_update (rt : Runtime) (projectId : string) (params : CmUpdateProjectRequest)
    : Task ProjectWithLimits :=
  project ← projectRepo_findOneBy projectId;
  match project with
  | None => raise ENTITY_NOT_FOUND
  | Some _ =>
      _ ← projectRepo_update projectId
            {| set_displayName := update_displayName params;
               set_externalId := update_externalId params;
               set_notifyStatus := update_notifyStatus params;
               set_deleted := None |};
      updatedProject ← projectRepo_findOneByOrFail projectId;
      enrichProjectWithLimits rt updatedProject
  end.

Definition cm_delete (rt : Runtime) (projectId : string) : Task unit :=
  project ← projectRepo_findOneBy projectId;
  match project with
  | None => raise ENTITY_NOT_FOUND
  | Some _ =>
      (* Soft delete by setting deleted timestamp *)
      now ← newDateISO rt;
      projectRepo_update projectId
        {| set_displayName := None; set_externalId := None;
           set_notifyStatus := None; set_deleted := Some now |}
  end.

(** *** [cmPlatformProjectController] *)

Record ProjectIdParams : Type := { params_id : string }.

Record CreateProjectBody : Type := {
  body_displayName : string;
  body_externalId : option string;
  body_notifyStatus : option NotificationStatus;
}.

Record ListProjectsResponse : Type := {
  data : list ProjectWithLimits;
  cursor : option string;
}.

(** Helper function to verify platform admin. *)
Definition isPlatformAdmin {Params Body} (request : FastifyRequest Params Body) : Task bool :=
  user ← userService_getOneOrFail (principal_id (principal request));
  mret (bool_decide (platformRole user = ADMIN)).

(** Helper to get platform ID; [!user.platformId] holds for a missing value
    and for the empty string. *)
Definition getPlatformId {Params Body} (request : FastifyRequest Params Body) : Task string :=
  user ← userService_getOneOrFail (principal_id (principal request));
  match user_platformId user with
  | None => raise ENTITY_NOT_FOUND
  | Some pid => if bool_decide (pid = "") then raise ENTITY_NOT_FOUND else mret pid
  end.

Definition listProjects (rt : Runtime) (request : FastifyRequest unit unit)
    : Task ListProjectsResponse :=
  isAdmin ← isPlatformAdmin request;
  if negb isAdmin then raise AUTHORIZATION
  else
    platformId ← getPlatformId request;
    projects ← cm_list rt platformId;
    mret {| data := projects; cursor := None |}.

Definition getProject (rt : Runtime) (request : FastifyRequest ProjectIdParams unit)
    : Task ProjectWithLimits :=
  isAdmin ← isPlatformAdmin request;
  if negb isAdmin then raise AUTHORIZATION
  else
    let projectId := params_id (params request) in
    project ← cm_getById rt projectId;
    match project with
    | None => raise ENTITY_NOT_FOUND
    | Some project => mret project
    end.

Definition createProject (rt : Runtime) (request : FastifyRequest unit CreateProjectBody)
    : Task ProjectWithLimits :=
  isAdmin ← isPlatformAdmin request;
  if negb isAdmin then raise AUTHORIZATION
  else
    platformId ← getPlatformId request;
    (* Validate platform exists *)
    platform ← platformService_getOneOrThrow platformId;
    cm_create rt {| create_ownerId := principal_id (principal request);
                 create_platformId := platformId;
                 create_displayName := body_displayName (body request);
                 create_externalId := body_externalId (body request);
                 create_notifyStatus := body_notifyStatus (body request) |}.

Definition updateProject (rt : Runtime)
    (request : FastifyRequest ProjectIdParams CmUpdateProjectRequest) : Task ProjectWithLimits :=
  isAdmin ← isPlatformAdmin request;
  if negb isAdmin then raise AUTHORIZATION
  else
    let projectId := params_id (params request) in
    cm_update rt projectId
      {| update_displayName := update_displayName (body request);
         update_externalId := update_externalId (body request);
         update_notifyStatus := update_notifyStatus (body request) |}.

Definition deleteProject (rt : Runtime) (request : FastifyRequest ProjectIdParams unit)
    : Task SuccessResponse :=
  isAdmin ← isPlatformAdmin request;
  if negb isAdmin then raise AUTHORIZATION
  else
    let projectId := params_id (params request) in
    _ ← cm_delete rt projectId;
    mret {| success := true |}.

(** *** Notions used to state the properties *)

(** The tables are the same in both worlds (the clock and the id generator
    may have been consulted in between). *)
Definition sameTables (w w' : World) : Prop :=
  w_users w' = w_users w
  ∧ w_platforms w' = w_platforms w
  ∧ w_projects w' = w_projects w.

(** The project table is keyed by the [id] column. *)
Definition keyedById (w : World) : Prop :=
  ∀ k p, w_projects w !! k = Some p → id p = k.

(** A project that [findOneBy({ id, deleted: IsNull() })] finds. *)
Definition live (w : World) (projectId : string) (p : Project) : Prop :=
  w_projects w !! projectId = Some p ∧ deleted p = None.

(** The columns [update] passes to the repository, and the row [create]
    hands to [save]. *)
Definition updateColumns (params : CmUpdateProjectRequest) : ProjectColumns :=
  {| set_displayName := update_displayName params;
     set_externalId := update_externalId params;
     set_notifyStatus := update_notifyStatus params;
     set_deleted := None |}.

Definition newProjectOf (rt : Runtime) (params : CmCreateProjectRequest) (w : World) : Project :=
  {| id := idAt rt (idsDrawn w);
     ownerId := create_ownerId params;
     displayName := create_displayName params;
     platformId := create_platformId params;
     externalId := create_externalId params;
     notifyStatus := default ALWAYS (create_notifyStatus params);
     releasesEnabled := false;
     deleted := None |}.

(** *** Sample data *)

Definition sampleRuntime : Runtime :=
  {| isoAt := λ n, match n with
                   | 0 => "2025-03-10T08:00:00.000Z"
                   | _ => "2025-03-10T08:00:00.001Z"
                   end;
     idAt := λ n, match n with
                  | 0 => "proj-a"
                  | _ => "proj-b"
                  end;
     firstOfNextMonth := λ _ _, "2025-04-01T00:00:00.000Z" |}.

Definition sampleProject (pid platform : string) (removed : option string) : Project :=
  {| id := pid; ownerId := "admin"; displayName := "Project " +:+ pid;
     platformId := platform; externalId := None; notifyStatus := ALWAYS;
     releasesEnabled := false; deleted := removed |}.

Definition sampleWorld : World :=
  {| w_users := {[ "admin" := {| userId := "admin"; platformRole := ADMIN;
                                 user_platformId := Some "pl1" |};
                   "member" := {| userId := "member"; platformRole := OtherRole "MEMBER";
                                  user_platformId := Some "pl1" |} ]};
     w_platforms := {[ "pl1" := samplePlatform None None ]};
     w_projects := {[ "p1" := sampleProject "p1" "pl1" None;
                      "p2" := sampleProject "p2" "pl2" None;
                      "p3" := sampleProject "p3" "pl1" (Some "2025-01-01T00:00:00.000Z") ]};
     clockReads := 0;
     idsDrawn := 0 |}.

Definition asAdmin {Params Body} (p : Params) (b : Body) : FastifyRequest Params Body :=
  {| principal := {| principal_id := "admin"; principal_platform_id := "pl1" |};
     params := p; body := b |}.

Definition asMember {Params Body} (p : Params) (b : Body) : FastifyRequest Params Body :=
  {| principal := {| principal_id := "member"; principal_platform_id := "pl1" |};
     params := p; body := b |}.

End Projects.

(** * Properties of the piece visibility code *)

(** Unfolds the monad and the host services, leaving the store look-ups. *)
Ltac run_async :=
  repeat progress
    (cbn [filterPieces cmPieceMetadataServiceHooks upd_id upd_filteredPieceNames
          upd_filteredPieceBehavior users platforms fst snd] in *;
     unfold router_get, router_patch, router_patch_pieceName,
       getFilteredPiecesConfig, updateFilteredPiecesConfig, togglePieceVisibility,
       isPlatformAdmin, userService_getOneOrFail, platformService_getOneOrThrow,
       platformService_update, mbind, Async_bind, await, mret, Async_ret,
       resolved, throw in *).

(** ** What [filterPieces] computes once the platform is read *)

Lemma filter_all_true {A} (f : A → bool) (l : list A) :
  (∀ x, f x = true) → List.filter f l = l.
Proof.
  intros Hf. induction l as [|a l IH]; simpl; [done|].
  by rewrite Hf, IH.
Qed.

Lemma filterPieces_on_platform d db params pid platform :
  includeHidden params = false →
  platformId params = Some pid →
  platforms db !! pid = Some platform →
  filterPieces (cmPieceMetadataServiceHooks d) params db
  = (Ok (List.filter (λ x, shownTo platform (name x)) (pieces params)), db).
Proof.
  intros Hh Hp Hl. run_async. rewrite Hh, Hp. run_async. rewrite Hl. unfold shownTo.
  destruct (filteredPieceNames platform) as [[|n names]|].
  - by rewrite filter_all_true.
  - by destruct (decide (filteredPieceBehavior platform = Some ALLOWED)).
  - by rewrite filter_all_true.
Qed.

Lemma includes_true l x : includes l x = true ↔ x ∈ l.
Proof. unfold includes. apply bool_decide_eq_true. Qed.

Lemma includes_false l x : includes l x = false ↔ x ∉ l.
Proof. unfold includes. apply bool_decide_eq_false. Qed.

Lemma elem_of_List_filter {A} (f : A → bool) (l : list A) (x : A) :
  x ∈ List.filter f l ↔ x ∈ l ∧ f x = true.
Proof. rewrite !list_elem_of_In. apply filter_In. Qed.

(** ** C1 *)




(** ** C2 *)

(** C2: with a non-empty [filteredPieceNames], [filterPieces] keeps a candidate
    exactly when its name is not in the list under BLOCKED, and exactly when
    its name is in the list under ALLOWED; and with
    [{filteredPieceNames: ["slack","sheets"], filteredPieceBehavior: BLOCKED}]
    the candidates [slack, sheets, gmail] are filtered to [gmail]. *)
Theorem C2_nonempty_list_filters_by_membership :
  (∀ d db params pid platform names,
      includeHidden params = false →
      platformId params = Some pid →
      platforms db !! pid = Some platform →
      filteredPieceNames platform = Some names →
      names ≠ [] →
      ∃ out,
        filterPieces (cmPieceMetadataServiceHooks d) params db = (Ok out, db)
        ∧ (filteredPieceBehavior platform = Some BLOCKED →
           out = List.filter (λ x, negb (includes names (name x))) (pieces params)
           ∧ ∀ x, x ∈ out ↔ x ∈ pieces params ∧ name x ∉ names)
        ∧ (filteredPieceBehavior platform = Some ALLOWED →
           out = List.filter (λ x, includes names (name x)) (pieces params)
           ∧ ∀ x, x ∈ out ↔ x ∈ pieces params ∧ name x ∈ names))
  ∧ filterPieces (cmPieceMetadataServiceHooks passThroughHooks)
      (projectView [piece "slack"; piece "sheets"; piece "gmail"])
      (sampleDb (Some ["slack"; "sheets"]) (Some BLOCKED))
    = (Ok [piece "gmail"], sampleDb (Some ["slack"; "sheets"]) (Some BLOCKED)).
Proof.
  split; [|vm_compute; reflexivity].
  intros d db params pid platform names Hh Hp Hl Hn Hne.
  eexists. split; [by apply filterPieces_on_platform with (pid := pid)|].
  unfold shownTo. rewrite Hn.
  destruct names as [|n names]; [done|].
  split; intros Hb; rewrite Hb.
  - destruct (decide (Some BLOCKED = Some ALLOWED)) as [?|_]; [done|].
    split; [done|].
    intros x. rewrite elem_of_List_filter, negb_true_iff, includes_false. done.
  - destruct (decide (Some ALLOWED = Some ALLOWED)) as [_|?]; [|done].
    split; [done|].
    intros x. rewrite elem_of_List_filter, includes_true. done.
Qed.

Lemma C2_blocked_scenario_witness :
  ∃ out,
    filterPieces (cmPieceMetadataServiceHooks passThroughHooks)
      (projectView [piece "slack"; piece "sheets"; piece "gmail"])
      (sampleDb (Some ["slack"; "sheets"]) (Some BLOCKED))
    = (Ok out, sampleDb (Some ["slack"; "sheets"]) (Some BLOCKED))
    ∧ ∀ x, x ∈ out
           ↔ x ∈ [piece "slack"; piece "sheets"; piece "gmail"]
             ∧ name x ∉ ["slack"; "sheets"].
Proof.
  destruct (proj1 C2_nonempty_list_filters_by_membership passThroughHooks
              (sampleDb (Some ["slack"; "sheets"]) (Some BLOCKED))
              (projectView [piece "slack"; piece "sheets"; piece "gmail"])
              "pl1" (samplePlatform (Some ["slack"; "sheets"]) (Some BLOCKED))
              ["slack"; "sheets"])
    as (out & Hrun & Hblocked & _); [vm_compute; reflexivity ..|discriminate|].
  exists out. split; [exact Hrun|]. apply Hblocked. reflexivity.
Defined.

(** ** C9 *)

(** C9: when [includeHidden] is set or [platformId] is nil, [filterPieces]
    answers what the default hook answers on the same parameters, from any
    store: the platform's [filteredPieceNames] and [filteredPieceBehavior]
    are not consulted. *)
Theorem C9_include_hidden_or_no_platform_bypasses_config d params db :
  includeHidden params = true ∨ platformId params = None →
  filterPieces (cmPieceMetadataServiceHooks d) params db
  = filterPieces d params db.
Proof.
  intros [H|H]; cbn [filterPieces cmPieceMetadataServiceHooks]; rewrite H;
    [done|]. by destruct (includeHidden params).
Qed.

Lemma C9_bypass_witness :
  filterPieces (cmPieceMetadataServiceHooks passThroughHooks)
    {| platformId := Some "pl1"; includeHidden := true;
       pieces := [piece "slack"; piece "gmail"]; searchQuery := None |}
    (sampleDb (Some ["gmail"]) (Some ALLOWED))
  = filterPieces passThroughHooks
      {| platformId := Some "pl1"; includeHidden := true;
         pieces := [piece "slack"; piece "gmail"]; searchQuery := None |}
      (sampleDb (Some ["gmail"]) (Some ALLOWED)).
Proof.
  apply (C9_include_hidden_or_no_platform_bypasses_config passThroughHooks
           {| platformId := Some "pl1"; includeHidden := true;
              pieces := [piece "slack"; piece "gmail"]; searchQuery := None |}
           (sampleDb (Some ["gmail"]) (Some ALLOWED))).
  left. reflexivity.
Defined.

(** ** The membership mutation of the toggle *)

Lemma elem_of_removeName l p q : q ∈ removeName l p ↔ q ∈ l ∧ q ≠ p.
Proof.
  unfold removeName. rewrite elem_of_List_filter, negb_true_iff, bool_decide_eq_false. done.
Qed.

Lemma elem_of_addName l p q : q ∈ addName l p ↔ q ∈ l ∨ q = p.
Proof.
  unfold addName. destruct (includes l p) eqn:Hin.
  - apply includes_true in Hin. split; [by left|]. intros [?| ->]; done.
  - rewrite elem_of_app, list_elem_of_singleton. done.
Qed.

Lemma removeName_absent l p : p ∉ l → removeName l p = l.
Proof.
  intros Hp. unfold removeName. induction l as [|a l IH]; simpl; [done|].
  apply not_elem_of_cons in Hp as [Hne Hl].
  rewrite bool_decide_eq_false_2 by done. simpl. by rewrite IH.
Qed.

Lemma updatedNamesOf_cases l p :
  updatedNamesOf BLOCKED l p true = removeName l p
  ∧ updatedNamesOf BLOCKED l p false = addName l p
  ∧ updatedNamesOf ALLOWED l p true = addName l p
  ∧ updatedNamesOf ALLOWED l p false = removeName l p.
Proof.
  unfold updatedNamesOf, addName. simpl.
  destruct (includes l p) eqn:Hin; simpl; repeat split; try done;
    apply includes_false in Hin; by rewrite removeName_absent.
Qed.

Lemma elem_of_updatedNamesOf b l p v q :
  q ∈ updatedNamesOf b l p v
  ↔ if decide (q = p) then listedAfter b v = true else q ∈ l.
Proof.
  destruct (updatedNamesOf_cases l p) as (H1 & H2 & H3 & H4).
  destruct b, v; simpl; rewrite ?H1, ?H2, ?H3, ?H4;
    rewrite ?elem_of_removeName, ?elem_of_addName;
    destruct (decide (q = p)) as [->|?]; simpl; intuition congruence.
Qed.


Lemma togglePieceVisibility_found db pid platform p v :
  platforms db !! pid = Some platform →
  togglePieceVisibility pid p v db
  = (Ok {| toggle_success := true; toggle_filteredPieceNames := toggledNames platform p v |},
     {| users := users db;
        platforms := <[pid := withNames platform (toggledNames platform p v)]> (platforms db) |}).
Proof. intros Hl. run_async. rewrite Hl. run_async. by rewrite Hl. Qed.

Lemma togglePieceVisibility_missing db pid p v :
  platforms db !! pid = None →
  togglePieceVisibility pid p v db = (Thrown ENTITY_NOT_FOUND, db).
Proof. intros Hl. run_async. by rewrite Hl. Qed.

(** For an admin, the route [PATCH /:pieceName] does what the service's
    [togglePieceVisibility] does on the principal's platform. *)
Lemma router_patch_pieceName_admin (request : UpdatePieceVisibilityRequest) db u :
  users db !! principal_id (principal request) = Some u →
  platformRole u = ADMIN →
  router_patch_pieceName request db
  = togglePieceVisibility (principal_platform_id (principal request))
      (pieceName (params request)) (visible (body request)) db.
Proof. intros Hu Hr. run_async. rewrite Hu, Hr. done. Qed.

Lemma isVisible_withNames platform p v q :
  isVisible (withNames platform (toggledNames platform p v)) q
  = if decide (q = p) then v else isVisible platform q.
Proof.
  unfold isVisible, withNames, toggledNames, applyUpdate, namesOrEmpty, behaviorOrBlocked.
  simpl.
  set (b := default BLOCKED (filteredPieceBehavior platform)).
  set (l := default [] (filteredPieceNames platform)).
  pose proof (elem_of_updatedNamesOf b l p v q) as Hq.
  unfold includes.
  destruct (decide (q = p)) as [->|Hne].
  - destruct b, v; simpl in *;
      [rewrite bool_decide_eq_true_2 by (by apply Hq)
      |rewrite bool_decide_eq_false_2 by (by rewrite Hq)
      |rewrite bool_decide_eq_false_2 by (by rewrite Hq)
      |rewrite bool_decide_eq_true_2 by (by apply Hq)]; done.
  - rewrite (bool_decide_ext _ _ Hq). done.
Qed.

Lemma shownTo_isVisible platform q :
  behaviorOrBlocked platform = BLOCKED ∨ namesOrEmpty platform ≠ [] →
  shownTo platform q = isVisible platform q.
Proof.
  unfold shownTo, isVisible, behaviorOrBlocked, namesOrEmpty, includes.
  destruct (filteredPieceNames platform) as [[|n l]|],
    (filteredPieceBehavior platform) as [[]|]; simpl; intros [?|?]; done.
Qed.

(** ** C3 *)

(** The admin UI's [isVisible] follows the toggle without any condition: the
    toggled piece shows the requested state and no other piece changes. *)
Lemma isVisible_after_toggle db pid platform p v :
  platforms db !! pid = Some platform →
  ∃ platform',
    platforms (snd (togglePieceVisibility pid p v db)) !! pid = Some platform'
    ∧ isVisible platform' p = v
    ∧ ∀ q, q ≠ p → isVisible platform' q = isVisible platform q.
Proof.
  intros Hl. rewrite (togglePieceVisibility_found db pid platform p v Hl). cbn [fst snd].
  eexists. split; [apply lookup_insert_eq|]. split.
  - rewrite isVisible_withNames. by rewrite decide_True.
  - intros q Hq. rewrite isVisible_withNames. by rewrite decide_False.
Qed.




(** ** C4 *)







(** ** C5 *)

(** C5: the list the toggle writes is, under BLOCKED, the current list with
    the name removed to make the piece visible and with the name added to
    hide it, and under ALLOWED the other way round; removing and adding
    change the membership of that name only; the route [PATCH /:pieceName]
    answers and stores that list; and on
    [{filteredPieceNames: ["slack","sheets"], filteredPieceBehavior: BLOCKED}]
    making slack visible leaves [["sheets"]]. *)
Theorem C5_toggle_mutates_membership :
  (∀ l p,
      updatedNamesOf BLOCKED l p true = removeName l p
      ∧ updatedNamesOf BLOCKED l p false = addName l p
      ∧ updatedNamesOf ALLOWED l p true = addName l p
      ∧ updatedNamesOf ALLOWED l p false = removeName l p)
  ∧ (∀ l p q,
        (q ∈ removeName l p ↔ q ∈ l ∧ q ≠ p)
        ∧ (q ∈ addName l p ↔ q ∈ l ∨ q = p))
  ∧ (∀ (request : UpdatePieceVisibilityRequest) db u platform,
        users db !! principal_id (principal request) = Some u →
        platformRole u = ADMIN →
        platforms db !! principal_platform_id (principal request) = Some platform →
        let updatedNames :=
          updatedNamesOf (behaviorOrBlocked platform) (namesOrEmpty platform)
            (pieceName (params request)) (visible (body request)) in
        router_patch_pieceName request db
        = (Ok {| toggle_success := true; toggle_filteredPieceNames := updatedNames |},
           {| users := users db;
              platforms := <[principal_platform_id (principal request)
                             := withNames platform updatedNames]> (platforms db) |}))
  ∧ router_patch_pieceName (adminToggle "slack" true)
      (sampleDb (Some ["slack"; "sheets"]) (Some BLOCKED))
    = (Ok {| toggle_success := true; toggle_filteredPieceNames := ["sheets"] |},
       sampleDb (Some ["sheets"]) (Some BLOCKED)).
Proof.
  split; [exact updatedNamesOf_cases|].
  split; [intros l p q; split; [apply elem_of_removeName|apply elem_of_addName]|].
  split; [|vm_compute; reflexivity].
  intros request db u platform Hu Hr Hl updatedNames.
  rewrite (router_patch_pieceName_admin request db u Hu Hr).
  by rewrite (togglePieceVisibility_found db _ platform _ _ Hl).
Qed.

Lemma C5_allowed_hide_witness :
  router_patch_pieceName (adminToggle "slack" false)
    (sampleDb (Some ["slack"; "gmail"]) (Some ALLOWED))
  = (Ok {| toggle_success := true;
           toggle_filteredPieceNames := updatedNamesOf ALLOWED ["slack"; "gmail"] "slack" false |},
     {| users := users (sampleDb (Some ["slack"; "gmail"]) (Some ALLOWED));
        platforms :=
          <["pl1" := withNames (samplePlatform (Some ["slack"; "gmail"]) (Some ALLOWED))
                       (updatedNamesOf ALLOWED ["slack"; "gmail"] "slack" false)]>
            (platforms (sampleDb (Some ["slack"; "gmail"]) (Some ALLOWED))) |}).
Proof.
  apply (proj1 (proj2 (proj2 C5_toggle_mutates_membership))
           (adminToggle "slack" false)
           (sampleDb (Some ["slack"; "gmail"]) (Some ALLOWED))
           {| userId := "admin"; platformRole := ADMIN |}
           (samplePlatform (Some ["slack"; "gmail"]) (Some ALLOWED)));
    vm_compute; reflexivity.
Defined.

(** ** C10 *)

Lemma onlyNamesWritten_refl db pid : onlyNamesWritten db db pid.
Proof.
  split; [done|]. split; [done|].
  destruct (platforms db !! pid) as [platform|] eqn:Hl; [|done].
  by exists platform.
Qed.

Lemma togglePieceVisibility_frame db pid p v :
  (∃ names,
      snd (togglePieceVisibility pid p v db)
      = snd (platformService_update (namesOnlyUpdate pid names) db))
  ∧ onlyNamesWritten db (snd (togglePieceVisibility pid p v db)) pid.
Proof.
  destruct (platforms db !! pid) as [platform|] eqn:Hl.
  - rewrite (togglePieceVisibility_found db pid platform p v Hl). cbn [snd]. split.
    + exists (toggledNames platform p v). unfold namesOnlyUpdate. run_async.
      by rewrite Hl.
    + split; [done|]. split.
      * intros other Hne. cbn [platforms]. by rewrite lookup_insert_ne.
      * rewrite Hl. eexists. cbn [platforms]. split; [apply lookup_insert_eq|done].
  - rewrite (togglePieceVisibility_missing db pid p v Hl). cbn [snd]. split.
    + exists []. unfold namesOnlyUpdate. run_async. by rewrite Hl.
    + apply onlyNamesWritten_refl.
Qed.

Lemma router_patch_pieceName_rejects (request : UpdatePieceVisibilityRequest) db :
  (∀ u, users db !! principal_id (principal request) = Some u → platformRole u ≠ ADMIN) →
  snd (router_patch_pieceName request db) = db.
Proof.
  intros Hu. run_async.
  destruct (users db !! principal_id (principal request)) as [u|] eqn:Hl; [|done].
  rewrite bool_decide_eq_false_2 by by apply Hu. done.
Qed.

(** C10: the store after the single-piece toggle, through the service's
    [togglePieceVisibility] or through the route [PATCH /:pieceName], is the
    store before it or the store after a [platformService.update] whose
    argument lists [id] and [filteredPieceNames] only; users, other platforms,
    and [filteredPieceBehavior] and every other field of the platform are as
    they were. *)
Theorem C10_toggle_writes_only_filteredPieceNames :
  (∀ db pid p v,
      (∃ names,
          snd (togglePieceVisibility pid p v db)
          = snd (platformService_update (namesOnlyUpdate pid names) db))
      ∧ onlyNamesWritten db (snd (togglePieceVisibility pid p v db)) pid)
  ∧ (∀ (request : UpdatePieceVisibilityRequest) db,
        let pid := principal_platform_id (principal request) in
        (snd (router_patch_pieceName request db) = db
         ∨ ∃ names,
             snd (router_patch_pieceName request db)
             = snd (platformService_update (namesOnlyUpdate pid names) db))
        ∧ onlyNamesWritten db (snd (router_patch_pieceName request db)) pid).
Proof.
  split; [exact togglePieceVisibility_frame|].
  intros request db pid.
  destruct (users db !! principal_id (principal request)) as [u|] eqn:Hu.
  - destruct (decide (platformRole u = ADMIN)) as [Hr|Hr].
    + rewrite (router_patch_pieceName_admin request db u Hu Hr).
      destruct (togglePieceVisibility_frame db pid (pieceName (params request))
                  (visible (body request))) as [Hupd Hframe].
      split; [by right|done].
    + rewrite router_patch_pieceName_rejects
        by (intros u0 Hu0; rewrite Hu in Hu0; by injection Hu0 as <-).
      split; [by left|apply onlyNamesWritten_refl].
  - rewrite router_patch_pieceName_rejects
      by (intros u0 Hu0; by rewrite Hu in Hu0).
    split; [by left|apply onlyNamesWritten_refl].
Qed.

(** ** C6 *)

(** A principal without a user record is turned away by the look-up itself,
    again with the store untouched. *)
Lemma unknown_principal_changes_nothing who db cfg pn vis :
  users db !! principal_id who = None →
  router_get {| principal := who; params := tt; body := tt |} db
  = (Thrown ENTITY_NOT_FOUND, db)
  ∧ router_patch {| principal := who; params := tt; body := cfg |} db
    = (Thrown ENTITY_NOT_FOUND, db)
  ∧ router_patch_pieceName {| principal := who; params := pn; body := vis |} db
    = (Thrown ENTITY_NOT_FOUND, db).
Proof. intros Hu. run_async. cbn [principal]. by rewrite Hu. Qed.

(** C6: for a principal whose user is not a platform admin, each of the three
    configuration routes (GET /, PATCH /, PATCH /:pieceName) throws
    AUTHORIZATION and leaves the store, hence the platform's
    [filteredPieceNames] and [filteredPieceBehavior], exactly as it was. *)
Theorem C6_non_admin_is_rejected_without_change who db u cfg pn vis :
  users db !! principal_id who = Some u →
  platformRole u ≠ ADMIN →
  router_get {| principal := who; params := tt; body := tt |} db
  = (Thrown AUTHORIZATION, db)
  ∧ router_patch {| principal := who; params := tt; body := cfg |} db
    = (Thrown AUTHORIZATION, db)
  ∧ router_patch_pieceName {| principal := who; params := pn; body := vis |} db
    = (Thrown AUTHORIZATION, db).
Proof.
  intros Hu Hr. run_async. cbn [principal]. rewrite Hu.
  by rewrite bool_decide_eq_false_2.
Qed.

Lemma C6_member_rejected_witness :
  router_get {| principal := {| principal_id := "member"; principal_platform_id := "pl1" |};
                params := tt; body := tt |}
    (sampleDb (Some ["slack"]) (Some BLOCKED))
  = (Thrown AUTHORIZATION, sampleDb (Some ["slack"]) (Some BLOCKED))
  ∧ router_patch {| principal := {| principal_id := "member"; principal_platform_id := "pl1" |};
                    params := tt;
                    body := {| cfg_filteredPieceNames := [];
                               cfg_filteredPieceBehavior := ALLOWED |} |}
      (sampleDb (Some ["slack"]) (Some BLOCKED))
    = (Thrown AUTHORIZATION, sampleDb (Some ["slack"]) (Some BLOCKED))
  ∧ router_patch_pieceName
      {| principal := {| principal_id := "member"; principal_platform_id := "pl1" |};
         params := {| pieceName := "slack" |}; body := {| visible := true |} |}
      (sampleDb (Some ["slack"]) (Some BLOCKED))
    = (Thrown AUTHORIZATION, sampleDb (Some ["slack"]) (Some BLOCKED)).
Proof.
  apply (C6_non_admin_is_rejected_without_change
           {| principal_id := "member"; principal_platform_id := "pl1" |}
           (sampleDb (Some ["slack"]) (Some BLOCKED))
           {| userId := "member"; platformRole := OtherRole "MEMBER" |}).
  - vm_compute; reflexivity.
  - discriminate.
Defined.

(** * Properties of the trigger poll coordinator *)

Module TriggerPollProperties.
Import TriggerPoll.

Section Ordered.
Context {K P : Type} (key_le : K → K → bool).

(** The keys are totally preordered by [key_le]. *)
Hypothesis key_le_total : ∀ a b, key_le a b = true ∨ key_le b a = true.
Hypothesis key_le_trans :
  ∀ a b c, key_le a b = true → key_le b c = true → key_le a c = true.

Lemma key_le_refl a : key_le a a = true.
Proof. by destruct (key_le_total a a). Qed.

Lemma key_max_ge_l a b : key_le a (key_max key_le a b) = true.
Proof. unfold key_max. destruct (key_le a b) eqn:E; [done|apply key_le_refl]. Qed.

Lemma key_max_ge_r a b : key_le b (key_max key_le a b) = true.
Proof.
  unfold key_max. destruct (key_le a b) eqn:E; [apply key_le_refl|].
  destruct (key_le_total a b); congruence.
Qed.

(** *** Steps 3 and 4: what survives, in which order *)

Lemma elem_of_discardSeen wm (items : list (PolledItem K P)) x :
  x ∈ discardSeen key_le wm items ↔ x ∈ items ∧ key_le (itemKey x) wm = false.
Proof.
  unfold discardSeen. rewrite !list_elem_of_In, filter_In, negb_true_iff. done.
Qed.

Lemma elem_of_insertByKey (it : PolledItem K P) sorted x :
  x ∈ insertByKey key_le it sorted ↔ x = it ∨ x ∈ sorted.
Proof.
  induction sorted as [|y rest IH]; simpl.
  - rewrite list_elem_of_singleton, elem_of_nil. tauto.
  - destruct (key_le (itemKey it) (itemKey y)).
    + by rewrite elem_of_cons.
    + rewrite !elem_of_cons, IH. tauto.
Qed.

Lemma elem_of_sortByKey (items : list (PolledItem K P)) x :
  x ∈ sortByKey key_le items ↔ x ∈ items.
Proof.
  induction items as [|y rest IH]; simpl; [done|].
  rewrite elem_of_insertByKey, elem_of_cons, IH. done.
Qed.

(** *** Steps 5 and 6: the hand-off and the commit *)

Lemma emitInOrder_watermark_ge emit wm (items : list (PolledItem K P)) :
  key_le wm (snd (emitInOrder key_le emit wm items)) = true.
Proof.
  revert wm. induction items as [|it rest IH]; intros wm; simpl.
  - apply key_le_refl.
  - destruct (emit it); simpl; [|apply key_le_refl].
    specialize (IH (key_max key_le (itemKey it) wm)).
    destruct (emitInOrder key_le emit _ rest) as [out wm']. simpl in *.
    eapply key_le_trans; [apply key_max_ge_r|exact IH].
Qed.

Lemma emitInOrder_covers emit wm (items : list (PolledItem K P)) x :
  x ∈ fst (emitInOrder key_le emit wm items) →
  key_le (itemKey x) (snd (emitInOrder key_le emit wm items)) = true.
Proof.
  revert wm. induction items as [|it rest IH]; intros wm; simpl.
  - by intros ?%elem_of_nil.
  - destruct (emit it); simpl; [|by intros ?%elem_of_nil].
    specialize (IH (key_max key_le (itemKey it) wm)).
    pose proof (emitInOrder_watermark_ge emit (key_max key_le (itemKey it) wm) rest) as Hge.
    destruct (emitInOrder key_le emit _ rest) as [out wm']. simpl in *.
    intros [->|Hin]%elem_of_cons; [|by apply IH].
    eapply key_le_trans; [apply key_max_ge_l|exact Hge].
Qed.

Lemma emitInOrder_handed emit wm (items : list (PolledItem K P)) x :
  x ∈ fst (emitInOrder key_le emit wm items) → x ∈ items ∧ emit x = true.
Proof.
  revert wm. induction items as [|it rest IH]; intros wm; simpl.
  - by intros ?%elem_of_nil.
  - destruct (emit it) eqn:Hemit; simpl; [|by intros ?%elem_of_nil].
    specialize (IH (key_max key_le (itemKey it) wm)).
    destruct (emitInOrder key_le emit _ rest) as [out wm']. simpl in *.
    intros [->|Hin]%elem_of_cons; [by split; [left|]|].
    destruct (IH Hin). split; [by right|done].
Qed.

(** The committed watermark is the previous one or the key of an item that
    was handed off: it never runs ahead of the confirmed deliveries. *)
Lemma emitInOrder_watermark_seen emit wm (items : list (PolledItem K P)) :
  snd (emitInOrder key_le emit wm items) = wm
  ∨ ∃ x, x ∈ fst (emitInOrder key_le emit wm items)
         ∧ itemKey x = snd (emitInOrder key_le emit wm items).
Proof.
  revert wm. induction items as [|it rest IH]; intros wm; simpl; [by left|].
  destruct (emit it); simpl; [|by left].
  specialize (IH (key_max key_le (itemKey it) wm)).
  destruct (emitInOrder key_le emit _ rest) as [out wm']. simpl in *.
  destruct IH as [->|(x & Hx & Hk)].
  - unfold key_max. destruct (key_le (itemKey it) wm); [by left|].
    right. exists it. split; [by left|done].
  - right. exists x. split; [by right|done].
Qed.

(** *** One tick *)

Lemma poll_watermark_ge (reg : TriggerRegistration K) (tick : Tick K P) :
  key_le (watermark reg) (watermark (committed (poll key_le reg tick))) = true.
Proof.
  unfold poll. destruct (enabled reg); [|apply key_le_refl].
  destruct (fetch tick) as [|items]; [apply key_le_refl|].
  pose proof (emitInOrder_watermark_ge (emit tick) (watermark reg)
                (sortByKey key_le (discardSeen key_le (watermark reg) items))) as Hge.
  destruct (emitInOrder key_le _ _ _) as [out wm']. done.
Qed.

Lemma poll_emitted_fresh (reg : TriggerRegistration K) (tick : Tick K P) x :
  x ∈ emitted (poll key_le reg tick) →
  key_le (itemKey x) (watermark reg) = false.
Proof.
  unfold poll. destruct (enabled reg); [|by intros ?%elem_of_nil].
  destruct (fetch tick) as [|items]; [by intros ?%elem_of_nil|].
  pose proof (emitInOrder_handed (emit tick) (watermark reg)
                (sortByKey key_le (discardSeen key_le (watermark reg) items)) x) as Hin.
  destruct (emitInOrder key_le _ _ _) as [out wm']. simpl in *.
  intros Hx. destruct (Hin Hx) as [Hs _].
  apply elem_of_sortByKey, elem_of_discardSeen in Hs. tauto.
Qed.

Lemma poll_emitted_covered (reg : TriggerRegistration K) (tick : Tick K P) x :
  x ∈ emitted (poll key_le reg tick) →
  key_le (itemKey x) (watermark (committed (poll key_le reg tick))) = true.
Proof.
  unfold poll. destruct (enabled reg); [|by intros ?%elem_of_nil].
  destruct (fetch tick) as [|items]; [by intros ?%elem_of_nil|].
  pose proof (emitInOrder_covers (emit tick) (watermark reg)
                (sortByKey key_le (discardSeen key_le (watermark reg) items)) x) as Hc.
  destruct (emitInOrder key_le _ _ _) as [out wm']. done.
Qed.

(** *** A history of ticks *)

Lemma pollAll_app (reg : TriggerRegistration K) (t1 t2 : list (Tick K P)) :
  pollAll key_le reg (t1 ++ t2) = pollAll key_le (pollAll key_le reg t1) t2.
Proof. revert reg. induction t1 as [|t t1 IH]; intros reg; simpl; [done|apply IH]. Qed.

Lemma pollAll_watermark_ge (reg : TriggerRegistration K) (ticks : list (Tick K P)) :
  key_le (watermark reg) (watermark (pollAll key_le reg ticks)) = true.
Proof.
  revert reg. induction ticks as [|t ticks IH]; intros reg; simpl.
  - apply key_le_refl.
  - eapply key_le_trans; [apply poll_watermark_ge|apply IH].
Qed.

Lemma pollAll_take_mono (reg : TriggerRegistration K) (ticks : list (Tick K P)) (i j : nat) :
  (i ≤ j)%nat →
  key_le (watermark (pollAll key_le reg (take i ticks)))
         (watermark (pollAll key_le reg (take j ticks))) = true.
Proof.
  intros Hij.
  rewrite <- (take_drop i (take j ticks)), take_take, Nat.min_l by done.
  rewrite pollAll_app. apply pollAll_watermark_ge.
Qed.

Lemma pollLog_lookup (reg : TriggerRegistration K) (ticks : list (Tick K P)) (j : nat) E :
  pollLog key_le reg ticks !! j = Some E →
  ∃ tick, ticks !! j = Some tick
          ∧ E = emitted (poll key_le (pollAll key_le reg (take j ticks)) tick)
          ∧ pollAll key_le reg (take (S j) ticks)
            = committed (poll key_le (pollAll key_le reg (take j ticks)) tick).
Proof.
  revert reg j. induction ticks as [|t ticks IH]; intros reg j; simpl; [done|].
  destruct j as [|j]; simpl.
  - intros [= <-]. by exists t.
  - apply IH.
Qed.

(** *** Within one batch

    A poll hands to [emit] a part of what was fetched, each item at most
    once; so a key is emitted twice by one poll only when the fetched batch
    itself carries it on two items (ties are kept, in input order). *)

Lemma List_filter_sublist {A} (f : A → bool) (l : list A) : List.filter f l `sublist_of` l.
Proof.
  induction l as [|a l IH]; simpl; [done|].
  destruct (f a); [by apply sublist_skip|by apply sublist_cons].
Qed.

Lemma insertByKey_Permutation (it : PolledItem K P) sorted :
  insertByKey key_le it sorted ≡ₚ it :: sorted.
Proof.
  induction sorted as [|y rest IH]; simpl; [done|].
  destruct (key_le (itemKey it) (itemKey y)); [done|].
  rewrite IH. apply Permutation_swap.
Qed.

Lemma sortByKey_Permutation (items : list (PolledItem K P)) :
  sortByKey key_le items ≡ₚ items.
Proof.
  induction items as [|y rest IH]; simpl; [done|].
  by rewrite insertByKey_Permutation, IH.
Qed.

Lemma emitInOrder_sublist emit wm (items : list (PolledItem K P)) :
  fst (emitInOrder key_le emit wm items) `sublist_of` items.
Proof.
  revert wm. induction items as [|it rest IH]; intros wm; simpl; [done|].
  destruct (emit it); simpl; [|apply sublist_nil_l].
  specialize (IH (key_max key_le (itemKey it) wm)).
  destruct (emitInOrder key_le emit _ rest) as [out wm']. simpl in *.
  by apply sublist_skip.
Qed.

Lemma poll_emitted_keys_NoDup (reg : TriggerRegistration K) (tick : Tick K P) :
  (∀ items, fetch tick = Fetched items → NoDup (itemKey <$> items)) →
  NoDup (itemKey <$> emitted (poll key_le reg tick)).
Proof.
  intros Hdistinct. unfold poll.
  destruct (enabled reg); [|by apply NoDup_nil].
  destruct (fetch tick) as [|items]; [by apply NoDup_nil|].
  pose proof (emitInOrder_sublist (emit tick) (watermark reg)
                (sortByKey key_le (discardSeen key_le (watermark reg) items))) as Hsub.
  destruct (emitInOrder key_le _ _ _) as [out wm']. simpl in *.
  eapply sublist_NoDup; [|by apply fmap_sublist].
  rewrite sortByKey_Permutation.
  eapply sublist_NoDup; [|apply fmap_sublist, List_filter_sublist].
  by apply Hdistinct.
Qed.

Lemma pollLog_fresh_from_start (reg : TriggerRegistration K) (ticks : list (Tick K P)) x :
  x ∈ concat (pollLog key_le reg ticks) →
  key_le (itemKey x) (watermark reg) = false.
Proof.
  revert reg. induction ticks as [|t ticks IH]; intros reg; simpl.
  - by intros ?%elem_of_nil.
  - intros [Hx|Hx]%elem_of_app; [by apply poll_emitted_fresh in Hx|].
    apply IH in Hx.
    destruct (key_le (itemKey x) (watermark reg)) eqn:E; [|done].
    rewrite <- Hx. symmetry.
    eapply key_le_trans; [exact E|apply poll_watermark_ge].
Qed.

(** When no fetched batch carries a key twice, the keys emitted over the
    whole history are pairwise distinct. *)
Lemma pollLog_keys_NoDup (reg : TriggerRegistration K) (ticks : list (Tick K P)) :
  (∀ tick items, tick ∈ ticks → fetch tick = Fetched items → NoDup (itemKey <$> items)) →
  NoDup (itemKey <$> concat (pollLog key_le reg ticks)).
Proof.
  revert reg. induction ticks as [|t ticks IH]; intros reg Hdistinct; simpl.
  - by apply NoDup_nil.
  - rewrite fmap_app. apply NoDup_app. split; [|split].
    + apply poll_emitted_keys_NoDup. intros items. apply Hdistinct. by left.
    + intros k (a & -> & Ha)%list_elem_of_fmap (b & Hk & Hb)%list_elem_of_fmap.
      apply poll_emitted_covered in Ha. apply pollLog_fresh_from_start in Hb.
      congruence.
    + apply IH. intros tick items Hin. apply Hdistinct. by right.
Qed.

(** ** C7 *)

(** C7: the watermark a poll commits is never before the one it started
    from, whatever was fetched and however far [emit] got; hence along any
    history of ticks the persisted watermark only moves forward: the
    watermark after a longer history is never before the one after a prefix
    of it. *)
Theorem C7_watermark_never_decreases :
  (∀ (reg : TriggerRegistration K) (tick : Tick K P),
      key_le (watermark reg) (watermark (committed (poll key_le reg tick))) = true)
  ∧ (∀ (reg : TriggerRegistration K) (earlier later : list (Tick K P)),
        key_le (watermark (pollAll key_le reg earlier))
               (watermark (pollAll key_le reg (earlier ++ later))) = true).
Proof.
  split; [exact poll_watermark_ge|].
  intros reg earlier later. rewrite pollAll_app. apply pollAll_watermark_ge.
Qed.

(** ** C8 *)

(** C8, as the model has it: along any history of ticks of one trigger,
    (1) whatever a poll emits has a key strictly after the watermark stored
    when that poll ran, so an item equal to or before the stored watermark
    (TIMEBASED) or stored key (LAST_ITEM) is never emitted again; (2) no
    [itemKey] is emitted by two different polls of the history; and (3) when
    no fetched batch carries one key on two items, no [itemKey] is emitted
    twice across the whole history. *)
Theorem C8_no_key_emitted_by_two_polls :
  (∀ (reg : TriggerRegistration K) (ticks : list (Tick K P)) (j : nat) E x,
      pollLog key_le reg ticks !! j = Some E →
      x ∈ E →
      key_le (itemKey x) (watermark (pollAll key_le reg (take j ticks))) = false)
  ∧ (∀ (reg : TriggerRegistration K) (ticks : list (Tick K P)) (i j : nat) Ei Ej a b,
        (i < j)%nat →
        pollLog key_le reg ticks !! i = Some Ei →
        pollLog key_le reg ticks !! j = Some Ej →
        a ∈ Ei → b ∈ Ej →
        itemKey a ≠ itemKey b)
  ∧ (∀ (reg : TriggerRegistration K) (ticks : list (Tick K P)),
        (∀ tick items, tick ∈ ticks → fetch tick = Fetched items →
                       NoDup (itemKey <$> items)) →
        NoDup (itemKey <$> concat (pollLog key_le reg ticks))).
Proof.
  assert (Hfresh : ∀ (reg : TriggerRegistration K) (ticks : list (Tick K P)) (j : nat) E x,
             pollLog key_le reg ticks !! j = Some E → x ∈ E →
             key_le (itemKey x) (watermark (pollAll key_le reg (take j ticks))) = false).
  { intros reg ticks j E x HE Hx.
    destruct (pollLog_lookup reg ticks j E HE) as (tick & _ & -> & _).
    by apply poll_emitted_fresh in Hx. }
  split; [exact Hfresh|]. split; [|exact pollLog_keys_NoDup].
  intros reg ticks i j Ei Ej a b Hij Hi Hj Ha Hb Heq.
  pose proof (Hfresh reg ticks j Ej b Hj Hb) as Hafter.
  destruct (pollLog_lookup reg ticks i Ei Hi) as (tick & _ & -> & Hcommit).
  apply poll_emitted_covered in Ha. rewrite <- Hcommit in Ha.
  assert (key_le (itemKey b) (watermark (pollAll key_le reg (take j ticks))) = true);
    [|congruence].
  rewrite <- Heq. eapply key_le_trans; [exact Ha|].
  apply pollAll_take_mono. lia.
Qed.
End Ordered.

(** ** A TIMEBASED trigger: keys are epoch milliseconds *)

Lemma Zleb_total (a b : Z) : (a <=? b)%Z = true ∨ (b <=? a)%Z = true.
Proof. rewrite !Z.leb_le. lia. Qed.

Lemma Zleb_trans (a b c : Z) :
  (a <=? b)%Z = true → (b <=? c)%Z = true → (a <=? c)%Z = true.
Proof. rewrite !Z.leb_le. lia. Qed.

(** Concrete scenario 3 of the specification. *)
Example scenario_3_emits_new_items_in_order :
  poll Z.leb (registration 1000) (fetched [900; 1000; 1100; 1200]%Z emitOk)
  = {| emitted := [item 1100; item 1200]; committed := registration 1200 |}.
Proof. reflexivity. Qed.

(** Concrete scenario 4 of the specification. *)
Example scenario_4_failed_emit_keeps_watermark :
  poll Z.leb (registration 1000) (fetched [900; 1000; 1100; 1200]%Z (emitFailsOn 1100))
  = {| emitted := []; committed := registration 1000 |}
  ∧ pollLog Z.leb (registration 1000)
      [fetched [900; 1000; 1100; 1200]%Z (emitFailsOn 1100);
       fetched [900; 1000; 1100; 1200]%Z emitOk]
    = [[]; [item 1100; item 1200]].
Proof. split; reflexivity. Qed.

Lemma C7_timebased_witness :
  (watermark (registration 1000)
   <=? watermark (committed (poll Z.leb (registration 1000)
                               (fetched [900; 1000; 1100; 1200]%Z emitOk))))%Z = true.
Proof.
  apply (proj1 (C7_watermark_never_decreases Z.leb Zleb_total Zleb_trans)
           (registration 1000) (fetched [900; 1000; 1100; 1200]%Z emitOk)).
Defined.

Lemma C8_overlapping_batches_witness :
  pollLog Z.leb (registration 1000)
    [fetched [900; 1000; 1100; 1200]%Z emitOk; fetched [1100; 1200; 1300]%Z emitOk]
  = [[item 1100; item 1200]; [item 1300]]
  ∧ (itemKey (item 1300)
     <=? watermark (pollAll Z.leb (registration 1000)
                      (take 1 [fetched [900; 1000; 1100; 1200]%Z emitOk;
                               fetched [1100; 1200; 1300]%Z emitOk])))%Z = false
  ∧ itemKey (item 1100) ≠ itemKey (item 1300)
  ∧ NoDup (itemKey <$> concat (pollLog Z.leb (registration 1000)
                                 [fetched [900; 1000; 1100; 1200]%Z emitOk;
                                  fetched [1100; 1200; 1300]%Z emitOk])).
Proof.
  split; [reflexivity|]. split; [|split].
  - apply (proj1 (C8_no_key_emitted_by_two_polls Z.leb Zleb_total Zleb_trans)
             (registration 1000)
             [fetched [900; 1000; 1100; 1200]%Z emitOk;
              fetched [1100; 1200; 1300]%Z emitOk]
             1%nat [item 1300] (item 1300)); [reflexivity|by left].
  - apply (proj1 (proj2 (C8_no_key_emitted_by_two_polls Z.leb Zleb_total Zleb_trans))
             (registration 1000)
             [fetched [900; 1000; 1100; 1200]%Z emitOk;
              fetched [1100; 1200; 1300]%Z emitOk]
             0%nat 1%nat [item 1100; item 1200] [item 1300] (item 1100) (item 1300));
      [lia|reflexivity|reflexivity|by left|by left].
  - apply (proj2 (proj2 (C8_no_key_emitted_by_two_polls Z.leb Zleb_total Zleb_trans))
             (registration 1000)
             [fetched [900; 1000; 1100; 1200]%Z emitOk;
              fetched [1100; 1200; 1300]%Z emitOk]).
    intros tick items Hin Hfetch.
    apply (bool_decide_unpack _).
    apply elem_of_cons in Hin as [->|Hin];
      [|apply list_elem_of_singleton in Hin as ->];
      injection Hfetch as <-; vm_compute; exact I.
Defined.

(** C8 as stated fails: keys that never decrease may repeat, and a fetched
    batch that carries the key 1100 on two items has both of them emitted by
    the one poll (ties are kept, in input order). *)
Lemma C8_tie_in_one_batch_counterexample :
  pollLog Z.leb (registration 1000) [fetched [1100; 1100]%Z emitOk]
  = [[item 1100; item 1100]]
  ∧ ¬ NoDup (itemKey <$> concat (pollLog Z.leb (registration 1000)
                                   [fetched [1100; 1100]%Z emitOk])).
Proof.
  split; [reflexivity|].
  intros Hnd. apply NoDup_cons in Hnd as [Hnotin _]. apply Hnotin. by left.
Qed.

End TriggerPollProperties.

(** * Further properties of the piece visibility code *)

(** ** [filterPieces] on the platform path *)

Lemma List_filter_idempotent {A} (f : A → bool) (l : list A) :
  List.filter f (List.filter f l) = List.filter f l.
Proof.
  induction l as [|a l IH]; simpl; [done|].
  destruct (f a) eqn:E; simpl; [by rewrite E, IH|done].
Qed.

(** X1: when [filterPieces] consults the platform, what it returns is a
    sublist of the candidates (same pieces, same order, nothing added) and the
    store is left untouched. *)
Theorem filterPieces_returns_sublist_of_candidates d db params pid platform :
  includeHidden params = false →
  platformId params = Some pid →
  platforms db !! pid = Some platform →
  ∃ out,
    filterPieces (cmPieceMetadataServiceHooks d) params db = (Ok out, db)
    ∧ out `sublist_of` pieces params.
Proof.
  intros Hh Hp Hl. eexists. split.
  - by apply filterPieces_on_platform with (pid := pid).
  - apply TriggerPollProperties.List_filter_sublist.
Qed.

Lemma filterPieces_sublist_witness :
  ∃ out,
    filterPieces (cmPieceMetadataServiceHooks passThroughHooks)
      (projectView [piece "slack"; piece "gmail"; piece "sheets"])
      (sampleDb (Some ["gmail"]) (Some BLOCKED))
    = (Ok out, sampleDb (Some ["gmail"]) (Some BLOCKED))
    ∧ out `sublist_of` [piece "slack"; piece "gmail"; piece "sheets"].
Proof.
  apply (filterPieces_returns_sublist_of_candidates passThroughHooks
           (sampleDb (Some ["gmail"]) (Some BLOCKED))
           (projectView [piece "slack"; piece "gmail"; piece "sheets"]) "pl1"
           (samplePlatform (Some ["gmail"]) (Some BLOCKED)));
    vm_compute; reflexivity.
Defined.

(** X2: filtering is idempotent: handing the filtered list back to
    [filterPieces] for the same platform returns it unchanged. *)
Theorem filterPieces_twice_is_once d db params pid platform out :
  includeHidden params = false →
  platformId params = Some pid →
  platforms db !! pid = Some platform →
  fst (filterPieces (cmPieceMetadataServiceHooks d) params db) = Ok out →
  filterPieces (cmPieceMetadataServiceHooks d)
    {| platformId := Some pid; includeHidden := false;
       pieces := out; searchQuery := searchQuery params |} db
  = (Ok out, db).
Proof.
  intros Hh Hp Hl.
  rewrite (filterPieces_on_platform d db params pid platform Hh Hp Hl).
  cbn [fst]. intros [= <-].
  erewrite filterPieces_on_platform by (try exact Hl; reflexivity).
  cbn [pieces]. by rewrite List_filter_idempotent.
Qed.

Lemma filterPieces_twice_witness :
  filterPieces (cmPieceMetadataServiceHooks passThroughHooks)
    {| platformId := Some "pl1"; includeHidden := false;
       pieces := [piece "gmail"]; searchQuery := None |}
    (sampleDb (Some ["gmail"; "slack"]) (Some ALLOWED))
  = (Ok [piece "gmail"], sampleDb (Some ["gmail"; "slack"]) (Some ALLOWED)).
Proof.
  apply (filterPieces_twice_is_once passThroughHooks
           (sampleDb (Some ["gmail"; "slack"]) (Some ALLOWED))
           (projectView [piece "sheets"; piece "gmail"]) "pl1"
           (samplePlatform (Some ["gmail"; "slack"]) (Some ALLOWED)) [piece "gmail"]);
    vm_compute; reflexivity.
Defined.

(** X3: the verdict depends on the piece's name only: two candidates with the
    same name (two versions of one piece, say) are both kept or both dropped. *)
Theorem filterPieces_same_name_same_verdict d db params pid platform out x y :
  includeHidden params = false →
  platformId params = Some pid →
  platforms db !! pid = Some platform →
  fst (filterPieces (cmPieceMetadataServiceHooks d) params db) = Ok out →
  x ∈ pieces params → y ∈ pieces params →
  name x = name y →
  (x ∈ out ↔ y ∈ out).
Proof.
  intros Hh Hp Hl.
  rewrite (filterPieces_on_platform d db params pid platform Hh Hp Hl).
  cbn [fst]. intros [= <-] Hx Hy Hn.
  rewrite !elem_of_List_filter, Hn. tauto.
Qed.

Lemma filterPieces_same_name_witness :
  {| name := "slack"; displayName := "Slack"; version := "0.1.0" |}
    ∈ [{| name := "slack"; displayName := "Slack"; version := "0.1.0" |};
       {| name := "slack"; displayName := "Slack"; version := "0.2.0" |}; piece "gmail"]
  ↔ {| name := "slack"; displayName := "Slack"; version := "0.2.0" |}
    ∈ [{| name := "slack"; displayName := "Slack"; version := "0.1.0" |};
       {| name := "slack"; displayName := "Slack"; version := "0.2.0" |}; piece "gmail"].
Proof.
  apply (filterPieces_same_name_same_verdict passThroughHooks
           (sampleDb (Some ["sheets"]) (Some BLOCKED))
           (projectView [{| name := "slack"; displayName := "Slack"; version := "0.1.0" |};
                         {| name := "slack"; displayName := "Slack"; version := "0.2.0" |};
                         piece "sheets"; piece "gmail"]) "pl1"
           (samplePlatform (Some ["sheets"]) (Some BLOCKED)));
    [reflexivity|reflexivity|vm_compute; reflexivity|vm_compute; reflexivity
    |by left|by right; left|reflexivity].
Defined.

Lemma shownTo_reported platform n :
  shownTo platform n
  = match namesOrEmpty platform with
    | [] => true
    | names =>
        if decide (behaviorOrBlocked platform = ALLOWED)
        then includes names n else negb (includes names n)
    end.
Proof.
  unfold shownTo, namesOrEmpty, behaviorOrBlocked.
  destruct (filteredPieceNames platform) as [[|a l]|]; simpl; [done| |done].
  by destruct (filteredPieceBehavior platform) as [[]|].
Qed.

(** X4: the filter's verdict is a function of the configuration the GET
    endpoint reports: two stores in which [getFilteredPiecesConfig] answers
    the same for the platform give the same filtered list (so a missing list
    counts as empty and a missing behavior as BLOCKED for the filter too). *)
Theorem filterPieces_determined_by_reported_config d db1 db2 params pid platform1 platform2 :
  includeHidden params = false →
  platformId params = Some pid →
  platforms db1 !! pid = Some platform1 →
  platforms db2 !! pid = Some platform2 →
  fst (getFilteredPiecesConfig pid db1) = fst (getFilteredPiecesConfig pid db2) →
  fst (filterPieces (cmPieceMetadataServiceHooks d) params db1)
  = fst (filterPieces (cmPieceMetadataServiceHooks d) params db2).
Proof.
  intros Hh Hp H1 H2 Hcfg.
  rewrite (filterPieces_on_platform d db1 params pid platform1 Hh Hp H1).
  rewrite (filterPieces_on_platform d db2 params pid platform2 Hh Hp H2).
  run_async. rewrite H1, H2 in Hcfg. cbn [fst] in Hcfg.
  injection Hcfg as Hn Hb. cbn [fst]. f_equal.
  apply filter_ext. intros x.
  by rewrite !shownTo_reported, Hn, Hb.
Qed.

Lemma filterPieces_reported_config_witness :
  fst (filterPieces (cmPieceMetadataServiceHooks passThroughHooks)
         (projectView [piece "slack"; piece "gmail"]) (sampleDb None None))
  = fst (filterPieces (cmPieceMetadataServiceHooks passThroughHooks)
           (projectView [piece "slack"; piece "gmail"]) (sampleDb (Some []) (Some BLOCKED))).
Proof.
  apply (filterPieces_determined_by_reported_config passThroughHooks
           (sampleDb None None) (sampleDb (Some []) (Some BLOCKED))
           (projectView [piece "slack"; piece "gmail"]) "pl1"
           (samplePlatform None None) (samplePlatform (Some []) (Some BLOCKED)));
    vm_compute; reflexivity.
Defined.

(** X5: with one non-empty list, ALLOWED and BLOCKED split the candidates:
    each candidate is kept under exactly one of the two behaviors, and the
    two results together have as many pieces as there were candidates. *)
Theorem allowed_and_blocked_split_the_candidates
    d dbA dbB params pid platformA platformB names :
  includeHidden params = false →
  platformId params = Some pid →
  platforms dbA !! pid = Some platformA →
  platforms dbB !! pid = Some platformB →
  names ≠ [] →
  filteredPieceNames platformA = Some names →
  filteredPieceNames platformB = Some names →
  filteredPieceBehavior platformA = Some ALLOWED →
  filteredPieceBehavior platformB = Some BLOCKED →
  ∃ outA outB,
    fst (filterPieces (cmPieceMetadataServiceHooks d) params dbA) = Ok outA
    ∧ fst (filterPieces (cmPieceMetadataServiceHooks d) params dbB) = Ok outB
    ∧ (∀ x, x ∈ pieces params → (x ∈ outA ↔ x ∉ outB))
    ∧ length outA + length outB = length (pieces params).
Proof.
  intros Hh Hp HA HB Hne HnA HnB HbA HbB.
  rewrite (filterPieces_on_platform d dbA params pid platformA Hh Hp HA).
  rewrite (filterPieces_on_platform d dbB params pid platformB Hh Hp HB).
  do 2 eexists. split; [done|]. split; [done|].
  assert (Hshown : ∀ n, shownTo platformB n = negb (shownTo platformA n)).
  { intros n. unfold shownTo. rewrite HnA, HnB, HbA, HbB.
    destruct names as [|a l]; [done|].
    destruct (decide (Some BLOCKED = Some ALLOWED)) as [?|_]; [done|].
    by destruct (decide (Some ALLOWED = Some ALLOWED)). }
  split.
  - intros x Hx. rewrite !elem_of_List_filter, Hshown.
    destruct (shownTo platformA (name x)); simpl; intuition congruence.
  - rewrite (filter_ext (λ x, shownTo platformB (name x))
               (λ x, negb (shownTo platformA (name x))))
      by (intros x; apply Hshown).
    apply (filter_length (λ x, shownTo platformA (name x))).
Qed.

Lemma allowed_and_blocked_split_witness :
  ∃ outA outB,
    fst (filterPieces (cmPieceMetadataServiceHooks passThroughHooks)
           (projectView [piece "slack"; piece "gmail"; piece "sheets"])
           (sampleDb (Some ["gmail"]) (Some ALLOWED))) = Ok outA
    ∧ fst (filterPieces (cmPieceMetadataServiceHooks passThroughHooks)
             (projectView [piece "slack"; piece "gmail"; piece "sheets"])
             (sampleDb (Some ["gmail"]) (Some BLOCKED))) = Ok outB
    ∧ (∀ x, x ∈ [piece "slack"; piece "gmail"; piece "sheets"] → (x ∈ outA ↔ x ∉ outB))
    ∧ length outA + length outB = 3.
Proof.
  apply (allowed_and_blocked_split_the_candidates passThroughHooks
           (sampleDb (Some ["gmail"]) (Some ALLOWED))
           (sampleDb (Some ["gmail"]) (Some BLOCKED))
           (projectView [piece "slack"; piece "gmail"; piece "sheets"]) "pl1"
           (samplePlatform (Some ["gmail"]) (Some ALLOWED))
           (samplePlatform (Some ["gmail"]) (Some BLOCKED)) ["gmail"]);
    try (vm_compute; reflexivity). discriminate.
Defined.

(** X6: the admin UI's eye icon and the server's filter agree on every piece
    whenever the behavior is BLOCKED (or unset) or the list is non-empty; under
    ALLOWED with an empty list they disagree on every piece: the UI marks all
    of them hidden while the server returns all of them. *)
Theorem ui_icon_and_filter_agree_except_allowed_empty :
  (∀ d db params pid platform,
      includeHidden params = false →
      platformId params = Some pid →
      platforms db !! pid = Some platform →
      behaviorOrBlocked platform = BLOCKED ∨ namesOrEmpty platform ≠ [] →
      ∃ out,
        filterPieces (cmPieceMetadataServiceHooks d) params db = (Ok out, db)
        ∧ ∀ x, x ∈ out ↔ x ∈ pieces params ∧ isVisible platform (name x) = true)
  ∧ (∀ d db params pid platform,
        includeHidden params = false →
        platformId params = Some pid →
        platforms db !! pid = Some platform →
        behaviorOrBlocked platform = ALLOWED →
        namesOrEmpty platform = [] →
        filterPieces (cmPieceMetadataServiceHooks d) params db = (Ok (pieces params), db)
        ∧ ∀ n, isVisible platform n = false).
Proof.
  split.
  - intros d db params pid platform Hh Hp Hl Hcond.
    rewrite (filterPieces_on_platform d db params pid platform Hh Hp Hl).
    eexists. split; [done|]. intros x.
    by rewrite elem_of_List_filter, shownTo_isVisible.
  - intros d db params pid platform Hh Hp Hl Hb Hn.
    rewrite (filterPieces_on_platform d db params pid platform Hh Hp Hl). split.
    + rewrite filter_all_true; [done|]. intros x.
      by rewrite shownTo_reported, Hn.
    + intros n. unfold isVisible. by rewrite Hn, Hb.
Qed.

Lemma ui_icon_disagrees_witness :
  filterPieces (cmPieceMetadataServiceHooks passThroughHooks)
    (projectView [piece "slack"; piece "gmail"]) (sampleDb (Some []) (Some ALLOWED))
  = (Ok [piece "slack"; piece "gmail"], sampleDb (Some []) (Some ALLOWED))
  ∧ ∀ n, isVisible (samplePlatform (Some []) (Some ALLOWED)) n = false.
Proof.
  apply (proj2 ui_icon_and_filter_agree_except_allowed_empty passThroughHooks
           (sampleDb (Some []) (Some ALLOWED))
           (projectView [piece "slack"; piece "gmail"]) "pl1"
           (samplePlatform (Some []) (Some ALLOWED)));
    vm_compute; reflexivity.
Defined.

(** ** The single-piece toggle beyond the toggled name *)

Lemma removeName_app l1 l2 p :
  removeName (l1 ++ l2) p = (removeName l1 p ++ removeName l2 p)%list.
Proof. unfold removeName. apply List.filter_app. Qed.

Lemma removeName_updatedNamesOf b l p v :
  removeName (updatedNamesOf b l p v) p = removeName l p.
Proof.
  assert (Hrm : removeName (removeName l p) p = removeName l p).
  { apply removeName_absent. rewrite elem_of_removeName. by intros [_ ?]. }
  assert (Hadd : removeName (addName l p) p = removeName l p).
  { unfold addName. destruct (includes l p); [done|].
    rewrite removeName_app. unfold removeName at 2. simpl.
    rewrite bool_decide_eq_true_2 by done. simpl. by rewrite app_nil_r. }
  destruct (updatedNamesOf_cases l p) as (H1 & H2 & H3 & H4).
  destruct b, v; rewrite ?H1, ?H2, ?H3, ?H4; done.
Qed.

Lemma NoDup_updatedNamesOf b l p v : NoDup l → NoDup (updatedNamesOf b l p v).
Proof.
  intros Hl.
  assert (Hrm : NoDup (removeName l p)).
  { eapply sublist_NoDup; [exact Hl|apply TriggerPollProperties.List_filter_sublist]. }
  assert (Hadd : NoDup (addName l p)).
  { unfold addName. destruct (includes l p) eqn:Hin; [done|].
    apply includes_false in Hin. apply NoDup_app. split; [done|]. split.
    - intros x Hx ->%list_elem_of_singleton. done.
    - apply NoDup_singleton. }
  destruct (updatedNamesOf_cases l p) as (H1 & H2 & H3 & H4).
  destruct b, v; rewrite ?H1, ?H2, ?H3, ?H4; done.
Qed.

Lemma store_after_toggle db pid platform p v :
  platforms db !! pid = Some platform →
  platforms (snd (togglePieceVisibility pid p v db)) !! pid
  = Some (withNames platform (toggledNames platform p v))
  ∧ storedNames (snd (togglePieceVisibility pid p v db)) pid
    = Some (toggledNames platform p v).
Proof.
  intros Hl. rewrite (togglePieceVisibility_found db pid platform p v Hl).
  unfold storedNames. cbn [snd platforms]. rewrite lookup_insert_eq. done.
Qed.

(** X7: the toggle leaves the entries of all other pieces as they were, in
    the same order and as often: without the toggled name, the list it
    answers (and stores) is the list it found. *)
Theorem toggle_keeps_other_entries_in_place db pid platform p v :
  platforms db !! pid = Some platform →
  ∃ names',
    fst (togglePieceVisibility pid p v db)
    = Ok {| toggle_success := true; toggle_filteredPieceNames := names' |}
    ∧ storedNames (snd (togglePieceVisibility pid p v db)) pid = Some names'
    ∧ removeName names' p = removeName (namesOrEmpty platform) p.
Proof.
  intros Hl. exists (toggledNames platform p v). split; [|split].
  - by rewrite (togglePieceVisibility_found db pid platform p v Hl).
  - by apply store_after_toggle.
  - apply removeName_updatedNamesOf.
Qed.

Lemma toggle_keeps_other_entries_witness :
  ∃ names',
    fst (togglePieceVisibility "pl1" "sheets" true
           (sampleDb (Some ["slack"; "sheets"; "gmail"; "sheets"]) (Some BLOCKED)))
    = Ok {| toggle_success := true; toggle_filteredPieceNames := names' |}
    ∧ storedNames (snd (togglePieceVisibility "pl1" "sheets" true
                          (sampleDb (Some ["slack"; "sheets"; "gmail"; "sheets"]) (Some BLOCKED))))
        "pl1" = Some names'
    ∧ removeName names' "sheets"
      = removeName (namesOrEmpty (samplePlatform (Some ["slack"; "sheets"; "gmail"; "sheets"])
                                    (Some BLOCKED))) "sheets".
Proof.
  apply (toggle_keeps_other_entries_in_place
           (sampleDb (Some ["slack"; "sheets"; "gmail"; "sheets"]) (Some BLOCKED)) "pl1"
           (samplePlatform (Some ["slack"; "sheets"; "gmail"; "sheets"]) (Some BLOCKED))
           "sheets" true).
  vm_compute; reflexivity.
Defined.

(** X8: the toggle never introduces a duplicate: from a list without
    repetitions it stores a list without repetitions. *)
Theorem toggle_preserves_distinct_names db pid platform p v :
  platforms db !! pid = Some platform →
  NoDup (namesOrEmpty platform) →
  ∃ names',
    storedNames (snd (togglePieceVisibility pid p v db)) pid = Some names'
    ∧ NoDup names'.
Proof.
  intros Hl Hnd. exists (toggledNames platform p v). split.
  - by apply store_after_toggle.
  - by apply NoDup_updatedNamesOf.
Qed.

Lemma toggle_preserves_distinct_witness :
  ∃ names',
    storedNames (snd (togglePieceVisibility "pl1" "slack" false
                        (sampleDb (Some ["slack"; "gmail"]) (Some BLOCKED)))) "pl1"
    = Some names'
    ∧ NoDup names'.
Proof.
  apply (toggle_preserves_distinct_names
           (sampleDb (Some ["slack"; "gmail"]) (Some BLOCKED)) "pl1"
           (samplePlatform (Some ["slack"; "gmail"]) (Some BLOCKED)) "slack" false).
  - vm_compute; reflexivity.
  - cbn. apply NoDup_cons. split; [|apply NoDup_singleton].
    intros H%list_elem_of_singleton. discriminate H.
Defined.

Lemma elem_of_updatedNamesOf_same b l p v :
  p ∈ updatedNamesOf b l p v ↔ listedAfter b v = true.
Proof. rewrite elem_of_updatedNamesOf. by rewrite decide_True. Qed.

Lemma elem_of_updatedNamesOf_other b l p v q :
  q ≠ p → (q ∈ updatedNamesOf b l p v ↔ q ∈ l).
Proof. intros Hq. rewrite elem_of_updatedNamesOf. by rewrite decide_False. Qed.

Lemma toggledNames_after_toggle platform p v p' v' :
  toggledNames (withNames platform (toggledNames platform p v)) p' v'
  = updatedNamesOf (behaviorOrBlocked platform) (toggledNames platform p v) p' v'.
Proof. reflexivity. Qed.

(** X9: the last toggle of a piece wins: toggling [p] to [v] and then to [v']
    stores a list with the same members as toggling it to [v'] at once. *)
Theorem last_toggle_of_a_piece_wins db pid platform p v v' :
  platforms db !! pid = Some platform →
  ∃ twice once,
    storedNames (snd (togglePieceVisibility pid p v'
                        (snd (togglePieceVisibility pid p v db)))) pid = Some twice
    ∧ storedNames (snd (togglePieceVisibility pid p v' db)) pid = Some once
    ∧ ∀ q, q ∈ twice ↔ q ∈ once.
Proof.
  intros Hl.
  destruct (store_after_toggle db pid platform p v Hl) as [Hl1 _].
  destruct (store_after_toggle _ pid _ p v' Hl1) as [_ Hs2].
  destruct (store_after_toggle db pid platform p v' Hl) as [_ Hs1].
  do 2 eexists. split; [exact Hs2|]. split; [exact Hs1|].
  intros q. rewrite toggledNames_after_toggle. unfold toggledNames.
  destruct (decide (q = p)) as [->|Hq].
  - by rewrite !elem_of_updatedNamesOf_same.
  - by rewrite !elem_of_updatedNamesOf_other.
Qed.

Lemma last_toggle_wins_witness :
  ∃ twice once,
    storedNames (snd (togglePieceVisibility "pl1" "slack" false
                        (snd (togglePieceVisibility "pl1" "slack" true
                                (sampleDb (Some ["slack"; "gmail"]) (Some BLOCKED)))))) "pl1"
    = Some twice
    ∧ storedNames (snd (togglePieceVisibility "pl1" "slack" false
                          (sampleDb (Some ["slack"; "gmail"]) (Some BLOCKED)))) "pl1"
      = Some once
    ∧ ∀ q, q ∈ twice ↔ q ∈ once.
Proof.
  apply (last_toggle_of_a_piece_wins
           (sampleDb (Some ["slack"; "gmail"]) (Some BLOCKED)) "pl1"
           (samplePlatform (Some ["slack"; "gmail"]) (Some BLOCKED)) "slack" true false).
  vm_compute; reflexivity.
Defined.

(** X10: toggles of two different pieces do not interfere: in either order
    they store lists with the same members. *)
Theorem toggles_of_different_pieces_commute db pid platform p v p' v' :
  platforms db !! pid = Some platform →
  p ≠ p' →
  ∃ first second,
    storedNames (snd (togglePieceVisibility pid p' v'
                        (snd (togglePieceVisibility pid p v db)))) pid = Some first
    ∧ storedNames (snd (togglePieceVisibility pid p v
                          (snd (togglePieceVisibility pid p' v' db)))) pid = Some second
    ∧ ∀ q, q ∈ first ↔ q ∈ second.
Proof.
  intros Hl Hne.
  destruct (store_after_toggle db pid platform p v Hl) as [Hl1 _].
  destruct (store_after_toggle _ pid _ p' v' Hl1) as [_ Hs1].
  destruct (store_after_toggle db pid platform p' v' Hl) as [Hl2 _].
  destruct (store_after_toggle _ pid _ p v Hl2) as [_ Hs2].
  do 2 eexists. split; [exact Hs1|]. split; [exact Hs2|].
  intros q. rewrite !toggledNames_after_toggle. unfold toggledNames.
  destruct (decide (q = p)) as [Hq|Hq], (decide (q = p')) as [Hq'|Hq']; subst.
  - done.
  - rewrite (elem_of_updatedNamesOf_other _ _ p' v' p Hq').
    by rewrite !elem_of_updatedNamesOf_same.
  - rewrite (elem_of_updatedNamesOf_other _ _ p v p' Hq).
    by rewrite !elem_of_updatedNamesOf_same.
  - by rewrite !elem_of_updatedNamesOf_other.
Qed.

Lemma toggles_commute_witness :
  ∃ first second,
    storedNames (snd (togglePieceVisibility "pl1" "gmail" true
                        (snd (togglePieceVisibility "pl1" "slack" true
                                (sampleDb (Some ["sheets"]) (Some ALLOWED)))))) "pl1"
    = Some first
    ∧ storedNames (snd (togglePieceVisibility "pl1" "slack" true
                          (snd (togglePieceVisibility "pl1" "gmail" true
                                  (sampleDb (Some ["sheets"]) (Some ALLOWED)))))) "pl1"
      = Some second
    ∧ ∀ q, q ∈ first ↔ q ∈ second.
Proof.
  apply (toggles_of_different_pieces_commute
           (sampleDb (Some ["sheets"]) (Some ALLOWED)) "pl1"
           (samplePlatform (Some ["sheets"]) (Some ALLOWED)) "slack" true "gmail" true).
  - vm_compute; reflexivity.
  - discriminate.
Defined.

(** X11: a toggle that adds a name that was not listed is undone exactly by
    the opposite toggle: the store is back to what it was (the platform's list
    being stored). *)
Theorem adding_toggle_is_undone_by_the_opposite db pid platform p v :
  platforms db !! pid = Some platform →
  is_Some (filteredPieceNames platform) →
  p ∉ namesOrEmpty platform →
  listedAfter (behaviorOrBlocked platform) v = true →
  snd (togglePieceVisibility pid p (negb v) (snd (togglePieceVisibility pid p v db))) = db.
Proof.
  intros Hl [l Hnames] Hp Hlisted.
  destruct (store_after_toggle db pid platform p v Hl) as [Hl1 _].
  rewrite (togglePieceVisibility_found _ pid _ p (negb v) Hl1).
  rewrite (togglePieceVisibility_found db pid platform p v Hl).
  cbn [snd users platforms]. rewrite insert_insert_eq.
  destruct db as [us ps]. cbn [users platforms] in *. f_equal.
  apply insert_id. rewrite Hl. f_equal.
  rewrite toggledNames_after_toggle. unfold toggledNames.
  assert (Hback : updatedNamesOf (behaviorOrBlocked platform)
                    (updatedNamesOf (behaviorOrBlocked platform) (namesOrEmpty platform) p v)
                    p (negb v) = namesOrEmpty platform).
  { destruct (updatedNamesOf_cases (namesOrEmpty platform) p) as (H1 & H2 & H3 & H4).
    destruct (updatedNamesOf_cases (addName (namesOrEmpty platform) p) p)
      as (A1 & _ & _ & A4).
    assert (Hrm : removeName (addName (namesOrEmpty platform) p) p = namesOrEmpty platform).
    { rewrite <- (removeName_absent (namesOrEmpty platform) p Hp) at 2.
      rewrite <- (removeName_updatedNamesOf ALLOWED (namesOrEmpty platform) p true).
      by rewrite H3. }
    destruct (behaviorOrBlocked platform), v; simpl in Hlisted; try done; simpl;
      rewrite ?H2, ?H3, ?A1, ?A4; done. }
  rewrite Hback. destruct platform. unfold withNames, namesOrEmpty in *.
  simpl in *. by subst.
Qed.

Lemma adding_toggle_undone_witness :
  snd (togglePieceVisibility "pl1" "slack" true
         (snd (togglePieceVisibility "pl1" "slack" false
                 (sampleDb (Some ["gmail"]) (Some BLOCKED)))))
  = sampleDb (Some ["gmail"]) (Some BLOCKED).
Proof.
  apply (adding_toggle_is_undone_by_the_opposite
           (sampleDb (Some ["gmail"]) (Some BLOCKED)) "pl1"
           (samplePlatform (Some ["gmail"]) (Some BLOCKED)) "slack" false).
  - vm_compute; reflexivity.
  - by eexists.
  - cbn. intros H%list_elem_of_singleton. discriminate H.
  - reflexivity.
Defined.

(** ** The configuration routes *)

Lemma router_patch_admin (request : UpdateFilteredPiecesRequest) db u :
  users db !! principal_id (principal request) = Some u →
  platformRole u = ADMIN →
  router_patch request db
  = updateFilteredPiecesConfig (principal_platform_id (principal request))
      (cfg_filteredPieceNames (body request)) (cfg_filteredPieceBehavior (body request)) db.
Proof. intros Hu Hr. run_async. rewrite Hu, Hr. done. Qed.

Lemma router_get_admin (request : FastifyRequest unit unit) db u :
  users db !! principal_id (principal request) = Some u →
  platformRole u = ADMIN →
  router_get request db
  = getFilteredPiecesConfig (principal_platform_id (principal request)) db.
Proof. intros Hu Hr. run_async. rewrite Hu, Hr. done. Qed.

Lemma router_patch_rejects (request : UpdateFilteredPiecesRequest) db :
  (∀ u, users db !! principal_id (principal request) = Some u → platformRole u ≠ ADMIN) →
  snd (router_patch request db) = db.
Proof.
  intros Hu. run_async.
  destruct (users db !! principal_id (principal request)) as [u|] eqn:Hl; [|done].
  rewrite bool_decide_eq_false_2 by by apply Hu. done.
Qed.

Lemma updateFilteredPiecesConfig_found db pid platform names behavior :
  platforms db !! pid = Some platform →
  updateFilteredPiecesConfig pid names behavior db
  = (Ok {| success := true |},
     {| users := users db;
        platforms :=
          <[pid := applyUpdate {| upd_id := pid;
                                  upd_filteredPieceNames := Some names;
                                  upd_filteredPieceBehavior := Some behavior |} platform]>
            (platforms db) |}).
Proof. intros Hl. run_async. by rewrite Hl. Qed.

Lemma updateFilteredPiecesConfig_missing db pid names behavior :
  platforms db !! pid = None →
  updateFilteredPiecesConfig pid names behavior db = (Thrown ENTITY_NOT_FOUND, db).
Proof. intros Hl. run_async. by rewrite Hl. Qed.

(** X12: what an admin writes with PATCH / is what GET / reads back: after
    the replace succeeds, the get answers exactly the body that was sent. *)
Theorem replace_then_get_reads_back_the_body who u cfg db platform :
  users db !! principal_id who = Some u →
  platformRole u = ADMIN →
  platforms db !! principal_platform_id who = Some platform →
  ∃ db',
    router_patch {| principal := who; params := tt; body := cfg |} db
    = (Ok {| success := true |}, db')
    ∧ router_get {| principal := who; params := tt; body := tt |} db' = (Ok cfg, db').
Proof.
  intros Hu Hr Hl.
  erewrite router_patch_admin by first [exact Hu|exact Hr]. cbn [principal body].
  rewrite (updateFilteredPiecesConfig_found db _ platform _ _ Hl).
  eexists. split; [done|].
  erewrite router_get_admin by first [exact Hu|exact Hr]. cbn [principal].
  run_async. rewrite lookup_insert_eq. by destruct cfg.
Qed.

Lemma replace_then_get_witness :
  ∃ db',
    router_patch {| principal := {| principal_id := "admin"; principal_platform_id := "pl1" |};
                    params := tt;
                    body := {| cfg_filteredPieceNames := ["slack"];
                               cfg_filteredPieceBehavior := ALLOWED |} |}
      (sampleDb None None)
    = (Ok {| success := true |}, db')
    ∧ router_get {| principal := {| principal_id := "admin"; principal_platform_id := "pl1" |};
                    params := tt; body := tt |} db'
      = (Ok {| cfg_filteredPieceNames := ["slack"]; cfg_filteredPieceBehavior := ALLOWED |}, db').
Proof.
  apply (replace_then_get_reads_back_the_body
           {| principal_id := "admin"; principal_platform_id := "pl1" |}
           {| userId := "admin"; platformRole := ADMIN |}
           {| cfg_filteredPieceNames := ["slack"]; cfg_filteredPieceBehavior := ALLOWED |}
           (sampleDb None None) (samplePlatform None None));
    vm_compute; reflexivity.
Defined.

(** X13: PATCH / is a full replace: sent twice by the same principal, the
    second body wins, and the outcome (answer and store) is the one of sending
    the second body alone, whatever the first one was and whether or not the
    calls are accepted. *)
Theorem replace_last_write_wins who cfg1 cfg2 db :
  router_patch {| principal := who; params := tt; body := cfg2 |}
    (snd (router_patch {| principal := who; params := tt; body := cfg1 |} db))
  = router_patch {| principal := who; params := tt; body := cfg2 |} db.
Proof.
  destruct (users db !! principal_id who) as [u|] eqn:Hu.
  - destruct (decide (platformRole u = ADMIN)) as [Hr|Hr].
    + rewrite (router_patch_admin {| principal := who; params := tt; body := cfg1 |}
                 db u Hu Hr).
      rewrite (router_patch_admin {| principal := who; params := tt; body := cfg2 |}
                 db u Hu Hr).
      cbn [principal body].
      destruct (platforms db !! principal_platform_id who) as [platform|] eqn:Hl.
      * rewrite !(updateFilteredPiecesConfig_found db _ platform _ _ Hl). cbn [snd].
        erewrite router_patch_admin by first [exact Hu|exact Hr]. cbn [principal body].
        erewrite updateFilteredPiecesConfig_found by apply lookup_insert_eq.
        cbn [users platforms]. by rewrite insert_insert_eq.
      * rewrite !(updateFilteredPiecesConfig_missing db _ _ _ Hl). cbn [snd].
        rewrite (router_patch_admin {| principal := who; params := tt; body := cfg2 |}
                   db u Hu Hr).
        cbn [principal body]. by rewrite (updateFilteredPiecesConfig_missing db _ _ _ Hl).
    + rewrite router_patch_rejects; [done|].
      cbn [principal]. intros u0 Hu0. rewrite Hu in Hu0. by injection Hu0 as <-.
  - rewrite router_patch_rejects; [done|].
    cbn [principal]. intros u0 Hu0. by rewrite Hu in Hu0.
Qed.

(** X14: PATCH / writes nothing but the two piece fields of the principal's
    platform: users, the other platforms, and the platform's [id],
    [platformName] and [managePiecesEnabled] are as before, whoever calls. *)
Theorem replace_writes_only_the_piece_fields (request : UpdateFilteredPiecesRequest) db :
  let pid := principal_platform_id (principal request) in
  let db' := snd (router_patch request db) in
  users db' = users db
  ∧ (∀ other, other ≠ pid → platforms db' !! other = platforms db !! other)
  ∧ match platforms db !! pid with
    | Some platform =>
        ∃ platform',
          platforms db' !! pid = Some platform'
          ∧ id platform' = id platform
          ∧ platformName platform' = platformName platform
          ∧ managePiecesEnabled platform' = managePiecesEnabled platform
    | None => platforms db' !! pid = None
    end.
Proof.
  intros pid db'. subst db'.
  assert (Hsame : snd (router_patch request db) = db →
            users (snd (router_patch request db)) = users db
            ∧ (∀ other, other ≠ pid →
                 platforms (snd (router_patch request db)) !! other = platforms db !! other)
            ∧ match platforms db !! pid with
              | Some platform =>
                  ∃ platform',
                    platforms (snd (router_patch request db)) !! pid = Some platform'
                    ∧ id platform' = id platform
                    ∧ platformName platform' = platformName platform
                    ∧ managePiecesEnabled platform' = managePiecesEnabled platform
              | None => platforms (snd (router_patch request db)) !! pid = None
              end).
  { intros ->. split; [done|]. split; [done|].
    destruct (platforms db !! pid) as [platform|] eqn:Hl; [|done]. by exists platform. }
  destruct (users db !! principal_id (principal request)) as [u|] eqn:Hu.
  - destruct (decide (platformRole u = ADMIN)) as [Hr|Hr].
    + rewrite (router_patch_admin request db u Hu Hr). fold pid.
      destruct (platforms db !! pid) as [platform|] eqn:Hl.
      * rewrite (updateFilteredPiecesConfig_found db pid platform _ _ Hl).
        cbn [snd users platforms]. split; [done|]. split.
        -- intros other Hne. by rewrite lookup_insert_ne.
        -- eexists. split; [apply lookup_insert_eq|done].
      * rewrite (updateFilteredPiecesConfig_missing db pid _ _ Hl). cbn [snd].
        by rewrite Hl.
    + apply Hsame, router_patch_rejects.
      intros u0 Hu0. rewrite Hu in Hu0. by injection Hu0 as <-.
  - apply Hsame, router_patch_rejects. intros u0 Hu0. by rewrite Hu in Hu0.
Qed.

(** X15: the answer of the single-piece toggle is what GET / reports next:
    the names it returned, with the behavior the platform had. *)
Theorem toggle_answer_is_what_get_reports who u p v db platform :
  users db !! principal_id who = Some u →
  platformRole u = ADMIN →
  platforms db !! principal_platform_id who = Some platform →
  ∃ names' db',
    router_patch_pieceName
      {| principal := who; params := {| pieceName := p |}; body := {| visible := v |} |} db
    = (Ok {| toggle_success := true; toggle_filteredPieceNames := names' |}, db')
    ∧ router_get {| principal := who; params := tt; body := tt |} db'
      = (Ok {| cfg_filteredPieceNames := names';
               cfg_filteredPieceBehavior := behaviorOrBlocked platform |}, db').
Proof.
  intros Hu Hr Hl.
  erewrite router_patch_pieceName_admin by first [exact Hu|exact Hr]. cbn [principal params body pieceName visible].
  rewrite (togglePieceVisibility_found db _ platform p v Hl).
  do 2 eexists. split; [done|].
  erewrite router_get_admin by first [exact Hu|exact Hr]. cbn [principal].
  run_async. by rewrite lookup_insert_eq.
Qed.

Lemma toggle_answer_witness :
  ∃ names' db',
    router_patch_pieceName (adminToggle "gmail" false) (sampleDb (Some ["slack"]) None)
    = (Ok {| toggle_success := true; toggle_filteredPieceNames := names' |}, db')
    ∧ router_get {| principal := {| principal_id := "admin"; principal_platform_id := "pl1" |};
                    params := tt; body := tt |} db'
      = (Ok {| cfg_filteredPieceNames := names';
               cfg_filteredPieceBehavior :=
                 behaviorOrBlocked (samplePlatform (Some ["slack"]) None) |}, db').
Proof.
  apply (toggle_answer_is_what_get_reports
           {| principal_id := "admin"; principal_platform_id := "pl1" |}
           {| userId := "admin"; platformRole := ADMIN |} "gmail" false
           (sampleDb (Some ["slack"]) None) (samplePlatform (Some ["slack"]) None));
    vm_compute; reflexivity.
Defined.

(** X16: POST /sync runs the piece sync for admins only: for any other user
    it throws AUTHORIZATION with the store untouched, whatever the sync would
    have done; for an admin it answers success exactly when the sync returns,
    passes on what the sync throws, and leaves the store as the sync left
    it. *)
Theorem sync_runs_for_admins_only (sync : Async unit) (request : FastifyRequest unit unit) db u :
  users db !! principal_id (principal request) = Some u →
  (platformRole u ≠ ADMIN →
   router_post_sync sync request db = (Thrown AUTHORIZATION, db))
  ∧ (platformRole u = ADMIN →
     router_post_sync sync request db
     = match sync db with
       | (Ok _, db') => (Ok {| success := true |}, db')
       | (Thrown code, db') => (Thrown code, db')
       end).
Proof.
  intros Hu. unfold router_post_sync. run_async. rewrite Hu. split; intros Hr.
  - by rewrite bool_decide_eq_false_2.
  - rewrite bool_decide_eq_true_2 by done. cbn. by destruct (sync db) as [[[]|] ?].
Qed.

Lemma sync_rejected_witness :
  router_post_sync
    (platformService_update
       {| upd_id := "pl1"; upd_filteredPieceNames := Some [];
          upd_filteredPieceBehavior := Some ALLOWED |})
    {| principal := {| principal_id := "member"; principal_platform_id := "pl1" |};
       params := tt; body := tt |}
    (sampleDb (Some ["slack"]) (Some BLOCKED))
  = (Thrown AUTHORIZATION, sampleDb (Some ["slack"]) (Some BLOCKED)).
Proof.
  apply (sync_runs_for_admins_only _ _ (sampleDb (Some ["slack"]) (Some BLOCKED))
           {| userId := "member"; platformRole := OtherRole "MEMBER" |}).
  - vm_compute; reflexivity.
  - discriminate.
Defined.

(** X17: the routes and the service object are two copies of the same logic
    and agree: for an admin, GET /, PATCH / and PATCH /:pieceName return and
    store exactly what [getFilteredPiecesConfig], [updateFilteredPiecesConfig]
    and [togglePieceVisibility] do on the principal's platform. *)
Theorem routes_agree_with_the_service who u cfg p v db :
  users db !! principal_id who = Some u →
  platformRole u = ADMIN →
  router_get {| principal := who; params := tt; body := tt |} db
  = getFilteredPiecesConfig (principal_platform_id who) db
  ∧ router_patch {| principal := who; params := tt; body := cfg |} db
    = updateFilteredPiecesConfig (principal_platform_id who)
        (cfg_filteredPieceNames cfg) (cfg_filteredPieceBehavior cfg) db
  ∧ router_patch_pieceName
      {| principal := who; params := {| pieceName := p |}; body := {| visible := v |} |} db
    = togglePieceVisibility (principal_platform_id who) p v db.
Proof.
  intros Hu Hr. split; [|split].
  - by erewrite router_get_admin by first [exact Hu|exact Hr].
  - by erewrite router_patch_admin by first [exact Hu|exact Hr].
  - by erewrite router_patch_pieceName_admin by first [exact Hu|exact Hr].
Qed.

Lemma routes_agree_witness :
  router_get {| principal := {| principal_id := "admin"; principal_platform_id := "pl1" |};
                params := tt; body := tt |} (sampleDb (Some ["slack"]) (Some ALLOWED))
  = getFilteredPiecesConfig "pl1" (sampleDb (Some ["slack"]) (Some ALLOWED))
  ∧ router_patch {| principal := {| principal_id := "admin"; principal_platform_id := "pl1" |};
                    params := tt;
                    body := {| cfg_filteredPieceNames := [];
                               cfg_filteredPieceBehavior := BLOCKED |} |}
      (sampleDb (Some ["slack"]) (Some ALLOWED))
    = updateFilteredPiecesConfig "pl1" [] BLOCKED (sampleDb (Some ["slack"]) (Some ALLOWED))
  ∧ router_patch_pieceName (adminToggle "gmail" true) (sampleDb (Some ["slack"]) (Some ALLOWED))
    = togglePieceVisibility "pl1" "gmail" true (sampleDb (Some ["slack"]) (Some ALLOWED)).
Proof.
  apply (routes_agree_with_the_service
           {| principal_id := "admin"; principal_platform_id := "pl1" |}
           {| userId := "admin"; platformRole := ADMIN |}
           {| cfg_filteredPieceNames := []; cfg_filteredPieceBehavior := BLOCKED |}
           "gmail" true (sampleDb (Some ["slack"]) (Some ALLOWED)));
    vm_compute; reflexivity.
Defined.

(** X18: reading the configuration never writes: GET / and
    [getFilteredPiecesConfig] leave the store as it was on every request,
    accepted or not. *)
Theorem reading_the_configuration_never_writes (request : FastifyRequest unit unit) pid db :
  snd (router_get request db) = db
  ∧ snd (getFilteredPiecesConfig pid db) = db.
Proof.
  split; run_async.
  - destruct (users db !! principal_id (principal request)) as [u|]; [|done].
    destruct (bool_decide (platformRole u = ADMIN)); [|done]. cbn.
    by destruct (platforms db !! principal_platform_id (principal request)).
  - by destruct (platforms db !! pid).
Qed.

(** * Properties of the flags hook *)

(** X19: when the request resolves to an existing platform, [modify] answers
    the flags with MANAGE_PIECES_ENABLED set to true, whatever the flag was and
    whatever the platform's own [managePiecesEnabled] says, and with every
    other flag as it came in; when the request has no platform the flags come
    back unchanged.  The hook itself writes nothing. *)
Theorem flags_hook_enables_piece_management_only {Request : Type}
    (getPlatformIdForRequest : Request → Async (option string))
    (flags : gmap string FlagValue) (request : Request) db resolved db' :
  getPlatformIdForRequest request db = (Ok resolved, db') →
  match resolved with
  | None =>
      cmFlagsHooks_modify getPlatformIdForRequest flags request db = (Ok flags, db')
  | Some pid =>
      is_Some (platforms db' !! pid) →
      ∃ flags',
        cmFlagsHooks_modify getPlatformIdForRequest flags request db = (Ok flags', db')
        ∧ flags' !! "MANAGE_PIECES_ENABLED" = Some (FlagBoolean true)
        ∧ ∀ k, k ≠ "MANAGE_PIECES_ENABLED" → flags' !! k = flags !! k
  end.
Proof.
  intros Hget. unfold cmFlagsHooks_modify. run_async. rewrite Hget.
  destruct resolved as [pid|]; [|done].
  intros [platform Hl]. rewrite Hl. eexists. split; [done|]. split.
  - apply lookup_insert_eq.
  - intros k Hk. by rewrite lookup_insert_ne.
Qed.

Lemma flags_hook_witness :
  ∃ flags',
    cmFlagsHooks_modify (λ pid : string, mret (Some pid))
      {[ "MANAGE_PIECES_ENABLED" := FlagBoolean false; "EDITION" := FlagString "ce" ]}
      "pl1" (sampleDb None None)
    = (Ok flags', sampleDb None None)
    ∧ flags' !! "MANAGE_PIECES_ENABLED" = Some (FlagBoolean true)
    ∧ ∀ k, k ≠ "MANAGE_PIECES_ENABLED"
           → flags' !! k
             = ({[ "MANAGE_PIECES_ENABLED" := FlagBoolean false;
                   "EDITION" := FlagString "ce" ]} : gmap string FlagValue) !! k.
Proof.
  apply (flags_hook_enables_piece_management_only (λ pid : string, mret (Some pid))
           {[ "MANAGE_PIECES_ENABLED" := FlagBoolean false; "EDITION" := FlagString "ce" ]}
           "pl1" (sampleDb None None) (Some "pl1") (sampleDb None None)).
  - reflexivity.
  - eexists. vm_compute. reflexivity.
Defined.

(** * Properties of the project service and controller *)

Module ProjectsProperties.
Import Projects.

Ltac run_task :=
  repeat progress
    (cbn [fst snd w_users w_platforms w_projects clockReads idsDrawn] in *;
     unfold listProjects, getProject, createProject, updateProject, deleteProject,
       isPlatformAdmin, getPlatformId, cm_list, cm_getById, cm_create, cm_update, cm_delete,
       enrichProjectsWithLimits, enrichProjectWithLimits,
       projectRepo_findBy, projectRepo_findOneBy, projectRepo_findOneByOrFail,
       projectRepo_save, projectRepo_update, withProjects, newDateISO, apId,
       userService_getOneOrFail, platformService_getOneOrThrow,
       mbind, Task_bind, andThen, mret, Task_ret, settled, raise in *).

Lemma sameTables_refl w : sameTables w w.
Proof. by repeat split. Qed.

Lemma sameTables_trans w1 w2 w3 : sameTables w1 w2 → sameTables w2 w3 → sameTables w1 w3.
Proof. intros (?&?&?) (?&?&?). repeat split; congruence. Qed.

Lemma enrich_run rt p w :
  ∃ e w',
    enrichProjectWithLimits rt p w = (Ok e, w')
    ∧ project e = p
    ∧ sameTables w w'
    ∧ idsDrawn w' = idsDrawn w.
Proof. run_task. do 2 eexists. split; [done|]. by repeat split. Qed.

Lemma enrichAll_run rt ps w :
  ∃ l w',
    enrichProjectsWithLimits rt ps w = (Ok l, w')
    ∧ project <$> l = ps
    ∧ sameTables w w'
    ∧ idsDrawn w' = idsDrawn w.
Proof.
  unfold enrichProjectsWithLimits. revert w.
  induction ps as [|p ps IH]; intros w; simpl.
  - do 2 eexists. split; [done|]. split; [done|]. split; [apply sameTables_refl|done].
  - destruct (enrich_run rt p w) as (e & w1 & He & Hp & Ht & Hi).
    destruct (IH w1) as (l & w2 & Hl & Hps & Ht2 & Hi2).
    exists (e :: l), w2.
    unfold mbind, Task_bind, andThen at 1. rewrite He.
    unfold andThen at 1. rewrite Hl. split; [done|]. split; [by rewrite fmap_cons, Hp, Hps|].
    split; [by eapply sameTables_trans|congruence].
Qed.

Lemma elem_of_rows (m : gmap string Project) q :
  q ∈ (map_to_list m).*2 ↔ ∃ k, m !! k = Some q.
Proof.
  rewrite list_elem_of_fmap. split.
  - intros ([k q'] & -> & Hin). exists k. by apply elem_of_map_to_list.
  - intros [k Hk]. exists (k, q). split; [done|]. by apply elem_of_map_to_list.
Qed.

Lemma findBy_rows plat w q :
  q ∈ List.filter (λ p, bool_decide (platformId p = plat) && bool_decide (deleted p = None))
        (map_to_list (w_projects w)).*2
  ↔ (∃ k, w_projects w !! k = Some q) ∧ platformId q = plat ∧ deleted q = None.
Proof.
  rewrite elem_of_List_filter, elem_of_rows, andb_true_iff, !bool_decide_eq_true. tauto.
Qed.

Lemma list_run rt plat w :
  ∃ l w',
    cm_list rt plat w = (Ok l, w')
    ∧ sameTables w w'
    ∧ ∀ q, q ∈ project <$> l
           ↔ (∃ k, w_projects w !! k = Some q) ∧ platformId q = plat ∧ deleted q = None.
Proof.
  unfold cm_list, projectRepo_findBy, mbind, Task_bind, andThen.
  destruct (enrichAll_run rt
              (List.filter (λ p, bool_decide (platformId p = plat)
                                 && bool_decide (deleted p = None))
                 (map_to_list (w_projects w)).*2) w) as (l & w' & Hl & Hps & Ht & _).
  exists l, w'. split; [exact Hl|]. split; [exact Ht|].
  intros q. rewrite Hps. apply findBy_rows.
Qed.

(** X20: [list] answers exactly the projects of the platform that are not
    deleted, each with its row unchanged inside the enriched value, and
    writes to no table. *)
Theorem list_answers_the_live_projects_of_the_platform rt plat w :
  ∃ l w',
    cm_list rt plat w = (Ok l, w')
    ∧ sameTables w w'
    ∧ ∀ q, q ∈ project <$> l
           ↔ (∃ k, w_projects w !! k = Some q) ∧ platformId q = plat ∧ deleted q = None.
Proof.
  unfold cm_list, projectRepo_findBy, mbind, Task_bind, andThen.
  destruct (enrichAll_run rt
              (List.filter (λ p, bool_decide (platformId p = plat)
                                 && bool_decide (deleted p = None))
                 (map_to_list (w_projects w)).*2) w) as (l & w' & Hl & Hps & Ht & _).
  exists l, w'. split; [exact Hl|]. split; [exact Ht|].
  intros q. rewrite Hps, elem_of_List_filter, elem_of_rows, andb_true_iff,
    !bool_decide_eq_true. tauto.
Qed.

Lemma getById_live rt pid p w :
  live w pid p →
  ∃ e w', cm_getById rt pid w = (Ok (Some e), w') ∧ project e = p ∧ sameTables w w'.
Proof.
  intros [Hl Hd]. unfold cm_getById, projectRepo_findOneBy, mbind, Task_bind, andThen.
  rewrite Hl, bool_decide_eq_true_2 by done.
  destruct (enrich_run rt p w) as (e & w' & He & Hp & Ht & _). rewrite He.
  by exists e, w'.
Qed.

Lemma getById_not_live rt pid w :
  (∀ p, ¬ live w pid p) →
  cm_getById rt pid w = (Ok None, w).
Proof.
  intros Hnone. unfold cm_getById, projectRepo_findOneBy, mbind, Task_bind, andThen.
  destruct (w_projects w !! pid) as [p|] eqn:Hl; [|done].
  destruct (bool_decide (deleted p = None)) eqn:Hd; [|done].
  apply bool_decide_eq_true in Hd. by destruct (Hnone p).
Qed.

Lemma not_live_run rt pid params w :
  (∀ p, ¬ live w pid p) →
  cm_getById rt pid w = (Ok None, w)
  ∧ cm_update rt pid params w = (Thrown ENTITY_NOT_FOUND, w)
  ∧ cm_delete rt pid w = (Thrown ENTITY_NOT_FOUND, w).
Proof.
  intros Hnone. split; [by apply getById_not_live|].
  assert (Hfind : projectRepo_findOneBy pid w = (Ok None, w)).
  { unfold projectRepo_findOneBy.
    destruct (w_projects w !! pid) as [p|] eqn:Hl; [|done].
    destruct (bool_decide (deleted p = None)) eqn:Hd; [|done].
    apply bool_decide_eq_true in Hd. by destruct (Hnone p). }
  split; unfold cm_update, cm_delete, mbind, Task_bind, andThen; by rewrite Hfind.
Qed.

(** X21: a project that is missing or already deleted cannot be read, changed
    or deleted: [getById] answers null, [update] and [delete] throw
    ENTITY_NOT_FOUND, and none of them touches the world. *)
Theorem missing_or_deleted_project_is_not_found rt pid params w :
  (∀ p, ¬ live w pid p) →
  cm_getById rt pid w = (Ok None, w)
  ∧ cm_update rt pid params w = (Thrown ENTITY_NOT_FOUND, w)
  ∧ cm_delete rt pid w = (Thrown ENTITY_NOT_FOUND, w).
Proof.
  intros Hnone.
  assert (Hfind : projectRepo_findOneBy pid w = (Ok None, w)).
  { unfold projectRepo_findOneBy.
    destruct (w_projects w !! pid) as [p|] eqn:Hl; [|done].
    destruct (bool_decide (deleted p = None)) eqn:Hd; [|done].
    apply bool_decide_eq_true in Hd. by destruct (Hnone p). }
  repeat split; unfold cm_getById, cm_update, cm_delete, mbind, Task_bind, andThen;
    by rewrite Hfind.
Qed.

Lemma missing_or_deleted_witness :
  cm_getById sampleRuntime "p3" sampleWorld = (Ok None, sampleWorld)
  ∧ cm_update sampleRuntime "p3"
      {| update_displayName := Some "Renamed"; update_externalId := None;
         update_notifyStatus := None |} sampleWorld
    = (Thrown ENTITY_NOT_FOUND, sampleWorld)
  ∧ cm_delete sampleRuntime "p3" sampleWorld = (Thrown ENTITY_NOT_FOUND, sampleWorld).
Proof.
  apply (missing_or_deleted_project_is_not_found sampleRuntime "p3" _ sampleWorld).
  intros p [Hl Hd]. vm_compute in Hl. injection Hl as <-. discriminate Hd.
Defined.

Lemma delete_live rt pid p w :
  live w pid p →
  cm_delete rt pid w
  = (Ok tt,
     {| w_users := w_users w; w_platforms := w_platforms w;
        w_projects :=
          <[pid := setColumns {| set_displayName := None; set_externalId := None;
                                 set_notifyStatus := None;
                                 set_deleted := Some (isoAt rt (clockReads w)) |} p]>
            (w_projects w);
        clockReads := S (clockReads w); idsDrawn := idsDrawn w |}).
Proof.
  intros [Hl Hd]. run_task. rewrite Hl, bool_decide_eq_true_2 by done.
  repeat f_equal. apply map_eq. intros k. rewrite lookup_alter, lookup_insert.
  destruct (decide (pid = k)) as [<-|?]; [by rewrite Hl|done].
Qed.

(** X22: [delete] is a soft delete: the row stays in the table with only its
    [deleted] column set (to the clock reading); from then on [getById]
    answers null for it, no [list] contains it, a second [delete] throws
    ENTITY_NOT_FOUND, and every other row is as before. *)
Theorem delete_hides_the_project_but_keeps_the_row rt pid p w :
  keyedById w →
  live w pid p →
  ∃ w' stamp,
    cm_delete rt pid w = (Ok tt, w')
    ∧ w_projects w' !! pid
      = Some {| id := id p; ownerId := ownerId p; displayName := displayName p;
                platformId := platformId p; externalId := externalId p;
                notifyStatus := notifyStatus p; releasesEnabled := releasesEnabled p;
                deleted := Some stamp |}
    ∧ (∀ k, k ≠ pid → w_projects w' !! k = w_projects w !! k)
    ∧ cm_getById rt pid w' = (Ok None, w')
    ∧ cm_delete rt pid w' = (Thrown ENTITY_NOT_FOUND, w')
    ∧ ∀ plat l, fst (cm_list rt plat w') = Ok l → ∀ e, e ∈ l → id (project e) ≠ pid.
Proof.
  intros Hkey Hlive. rewrite (delete_live rt pid p w Hlive).
  do 2 eexists. split; [done|].
  set (w' := {| w_users := w_users w; w_platforms := _; w_projects := _;
                clockReads := _; idsDrawn := _ |}).
  assert (Hrow : w_projects w' !! pid
                 = Some {| id := id p; ownerId := ownerId p; displayName := displayName p;
                           platformId := platformId p; externalId := externalId p;
                           notifyStatus := notifyStatus p; releasesEnabled := releasesEnabled p;
                           deleted := Some (isoAt rt (clockReads w)) |}).
  { unfold w'. cbn [w_projects]. by rewrite lookup_insert_eq. }
  assert (Hother : ∀ k, k ≠ pid → w_projects w' !! k = w_projects w !! k).
  { intros k Hk. unfold w'. cbn [w_projects]. by rewrite lookup_insert_ne. }
  assert (Hgone : ∀ q, ¬ live w' pid q).
  { intros q [Hq Hd]. rewrite Hrow in Hq. injection Hq as <-. discriminate Hd. }
  split; [exact Hrow|]. split; [exact Hother|].
  destruct (not_live_run rt pid
              {| update_displayName := None; update_externalId := None;
                 update_notifyStatus := None |} w' Hgone) as (Hget & _ & Hdel).
  split; [exact Hget|]. split; [exact Hdel|].
  intros plat l Hlist e He Hid.
  destruct (list_run rt plat w') as (l' & w'' & Hrun & _ & Hmem).
  rewrite Hrun in Hlist. cbn [fst] in Hlist. injection Hlist as <-.
  destruct (proj1 (Hmem (project e)) (list_elem_of_fmap_2 project l' e He))
    as ([k Hk] & _ & Hd).
  destruct (decide (k = pid)) as [->|Hne].
  - rewrite Hrow in Hk. injection Hk as Hk. rewrite <- Hk in Hd. discriminate Hd.
  - rewrite (Hother k Hne) in Hk. apply Hkey in Hk. congruence.
Qed.

Lemma sampleWorld_keyed : keyedById sampleWorld.
Proof.
  change (map_Forall (λ k p, id p = k) (w_projects sampleWorld)).
  apply (bool_decide_unpack _). vm_compute. exact I.
Qed.

Lemma delete_hides_witness :
  ∃ w' stamp,
    cm_delete sampleRuntime "p1" sampleWorld = (Ok tt, w')
    ∧ w_projects w' !! "p1"
      = Some {| id := "p1"; ownerId := "admin"; displayName := "Project p1";
                platformId := "pl1"; externalId := None;
                notifyStatus := ALWAYS; releasesEnabled := false;
                deleted := Some stamp |}
    ∧ (∀ k, k ≠ "p1" → w_projects w' !! k = w_projects sampleWorld !! k)
    ∧ cm_getById sampleRuntime "p1" w' = (Ok None, w')
    ∧ cm_delete sampleRuntime "p1" w' = (Thrown ENTITY_NOT_FOUND, w')
    ∧ ∀ plat l, fst (cm_list sampleRuntime plat w') = Ok l →
                ∀ e, e ∈ l → id (project e) ≠ "p1".
Proof.
  apply (delete_hides_the_project_but_keeps_the_row sampleRuntime "p1"
           (sampleProject "p1" "pl1" None) sampleWorld sampleWorld_keyed).
  split; vm_compute; reflexivity.
Defined.

Lemma update_live rt pid p params w :
  live w pid p →
  cm_update rt pid params w
  = enrichProjectWithLimits rt (setColumns (updateColumns params) p)
      {| w_users := w_users w; w_platforms := w_platforms w;
         w_projects := <[pid := setColumns (updateColumns params) p]> (w_projects w);
         clockReads := clockReads w; idsDrawn := idsDrawn w |}.
Proof.
  intros [Hl Hd].
  unfold cm_update, projectRepo_findOneByOrFail, projectRepo_findOneBy, projectRepo_update,
    withProjects, mbind, Task_bind, andThen, mret, Task_ret, settled.
  rewrite Hl, bool_decide_eq_true_2 by done. cbn [w_projects].
  rewrite lookup_alter, decide_True by done. rewrite Hl. cbn [fmap option_fmap option_map].
  rewrite bool_decide_eq_true_2 by (by destruct p; simpl in *).
  f_equal. f_equal. apply map_eq. intros k. rewrite lookup_alter, lookup_insert.
  destruct (decide (pid = k)) as [<-|?]; [by rewrite Hl|done].
Qed.

(** X23: [update] of a live project replaces the columns that are given and
    no other: [displayName], [externalId] and [notifyStatus] take the given
    value or keep the old one, [id], [ownerId], [platformId],
    [releasesEnabled] and [deleted] are kept, what is answered is the row now
    stored, and every other row is as before. *)
Theorem update_replaces_only_the_given_columns rt pid p params w :
  live w pid p →
  ∃ e w',
    cm_update rt pid params w = (Ok e, w')
    ∧ w_projects w' !! pid = Some (project e)
    ∧ displayName (project e) = default (displayName p) (update_displayName params)
    ∧ externalId (project e)
      = match update_externalId params with
        | Some x => Some x
        | None => externalId p
        end
    ∧ notifyStatus (project e) = default (notifyStatus p) (update_notifyStatus params)
    ∧ id (project e) = id p
    ∧ ownerId (project e) = ownerId p
    ∧ platformId (project e) = platformId p
    ∧ releasesEnabled (project e) = releasesEnabled p
    ∧ deleted (project e) = None
    ∧ ∀ k, k ≠ pid → w_projects w' !! k = w_projects w !! k.
Proof.
  intros Hlive. rewrite (update_live rt pid p params w Hlive).
  destruct (enrich_run rt (setColumns (updateColumns params) p)
              {| w_users := w_users w; w_platforms := w_platforms w;
                 w_projects := <[pid := setColumns (updateColumns params) p]> (w_projects w);
                 clockReads := clockReads w; idsDrawn := idsDrawn w |})
    as (e & w' & He & Hp & (_ & _ & Hrows) & _).
  exists e, w'. split; [exact He|]. rewrite Hrows, Hp. cbn [w_projects].
  split; [apply lookup_insert_eq|].
  destruct Hlive as [_ Hd]. repeat split; try done.
  intros k Hk. by rewrite lookup_insert_ne.
Qed.

Lemma update_replaces_witness :
  ∃ e w',
    cm_update sampleRuntime "p1"
      {| update_displayName := Some "Renamed"; update_externalId := None;
         update_notifyStatus := Some NEVER |} sampleWorld = (Ok e, w')
    ∧ w_projects w' !! "p1" = Some (project e)
    ∧ displayName (project e) = "Renamed"
    ∧ externalId (project e) = None
    ∧ notifyStatus (project e) = NEVER
    ∧ id (project e) = "p1"
    ∧ ownerId (project e) = "admin"
    ∧ platformId (project e) = "pl1"
    ∧ releasesEnabled (project e) = false
    ∧ deleted (project e) = None
    ∧ ∀ k, k ≠ "p1" → w_projects w' !! k = w_projects sampleWorld !! k.
Proof.
  apply (update_replaces_only_the_given_columns sampleRuntime "p1"
           (sampleProject "p1" "pl1" None)
           {| update_displayName := Some "Renamed"; update_externalId := None;
              update_notifyStatus := Some NEVER |} sampleWorld).
  split; vm_compute; reflexivity.
Defined.

Lemma create_run rt params w :
  cm_create rt params w
  = enrichProjectWithLimits rt (newProjectOf rt params w)
      {| w_users := w_users w; w_platforms := w_platforms w;
         w_projects := <[idAt rt (idsDrawn w) := newProjectOf rt params w]> (w_projects w);
         clockReads := clockReads w; idsDrawn := S (idsDrawn w) |}.
Proof. reflexivity. Qed.

(** X24: [create] stores a new live project under the identifier drawn from
    [apId]: it is owned by the given owner on the given platform, is not
    deleted, has releases disabled, and notifies ALWAYS unless a status was
    given; [getById] finds it afterwards; and when the identifier is fresh no
    existing row is touched. *)
Theorem create_stores_a_new_live_project rt params w :
  w_projects w !! idAt rt (idsDrawn w) = None →
  ∃ e w',
    cm_create rt params w = (Ok e, w')
    ∧ id (project e) = idAt rt (idsDrawn w)
    ∧ ownerId (project e) = create_ownerId params
    ∧ platformId (project e) = create_platformId params
    ∧ displayName (project e) = create_displayName params
    ∧ notifyStatus (project e) = default ALWAYS (create_notifyStatus params)
    ∧ releasesEnabled (project e) = false
    ∧ live w' (id (project e)) (project e)
    ∧ (∃ e' w'', cm_getById rt (id (project e)) w' = (Ok (Some e'), w'')
                 ∧ project e' = project e)
    ∧ ∀ k q, w_projects w !! k = Some q → w_projects w' !! k = Some q.
Proof.
  intros Hfresh. rewrite create_run.
  destruct (enrich_run rt (newProjectOf rt params w)
              {| w_users := w_users w; w_platforms := w_platforms w;
                 w_projects := <[idAt rt (idsDrawn w) := newProjectOf rt params w]>
                                 (w_projects w);
                 clockReads := clockReads w; idsDrawn := S (idsDrawn w) |})
    as (e & w' & He & Hp & (_ & _ & Hrows) & _).
  exists e, w'. split; [exact He|]. rewrite Hp. cbn [w_projects] in Hrows.
  assert (Hlive : live w' (idAt rt (idsDrawn w)) (newProjectOf rt params w)).
  { split; [|done]. rewrite Hrows. apply lookup_insert_eq. }
  repeat (split; [done|]).
  split.
  - destruct (getById_live rt _ _ w' Hlive) as (e' & w'' & Hget & Hpe & _).
    by exists e', w''.
  - intros k q Hk. rewrite Hrows. rewrite lookup_insert_ne; [done|].
    intros <-. by rewrite Hfresh in Hk.
Qed.

Lemma create_stores_witness :
  ∃ e w',
    cm_create sampleRuntime
      {| create_ownerId := "admin"; create_displayName := "Billing";
         create_platformId := "pl1"; create_externalId := None;
         create_notifyStatus := None |} sampleWorld = (Ok e, w')
    ∧ id (project e) = "proj-a"
    ∧ ownerId (project e) = "admin"
    ∧ platformId (project e) = "pl1"
    ∧ displayName (project e) = "Billing"
    ∧ notifyStatus (project e) = ALWAYS
    ∧ releasesEnabled (project e) = false
    ∧ live w' (id (project e)) (project e)
    ∧ (∃ e' w'', cm_getById sampleRuntime (id (project e)) w' = (Ok (Some e'), w'')
                 ∧ project e' = project e)
    ∧ ∀ k q, w_projects sampleWorld !! k = Some q → w_projects w' !! k = Some q.
Proof.
  apply (create_stores_a_new_live_project sampleRuntime
           {| create_ownerId := "admin"; create_displayName := "Billing";
              create_platformId := "pl1"; create_externalId := None;
              create_notifyStatus := None |} sampleWorld).
  vm_compute; reflexivity.
Defined.

(** X26: every project route turns a non-admin away with AUTHORIZATION before
    it reads or writes anything: the world is exactly as it was. *)
Theorem project_routes_reject_non_admins rt who u pid createBody updateBody w :
  w_users w !! principal_id who = Some u →
  platformRole u ≠ ADMIN →
  listProjects rt {| principal := who; params := tt; body := tt |} w
  = (Thrown AUTHORIZATION, w)
  ∧ getProject rt {| principal := who; params := pid; body := tt |} w
    = (Thrown AUTHORIZATION, w)
  ∧ createProject rt {| principal := who; params := tt; body := createBody |} w
    = (Thrown AUTHORIZATION, w)
  ∧ updateProject rt {| principal := who; params := pid; body := updateBody |} w
    = (Thrown AUTHORIZATION, w)
  ∧ deleteProject rt {| principal := who; params := pid; body := tt |} w
    = (Thrown AUTHORIZATION, w).
Proof.
  intros Hu Hr.
  unfold listProjects, getProject, createProject, updateProject, deleteProject,
    isPlatformAdmin, userService_getOneOrFail, mbind, Task_bind, andThen, mret, Task_ret,
    settled, raise.
  cbn [principal]. rewrite Hu. by rewrite bool_decide_eq_false_2.
Qed.

Lemma project_routes_reject_witness :
  listProjects sampleRuntime (asMember tt tt) sampleWorld = (Thrown AUTHORIZATION, sampleWorld)
  ∧ getProject sampleRuntime (asMember {| params_id := "p1" |} tt) sampleWorld
    = (Thrown AUTHORIZATION, sampleWorld)
  ∧ createProject sampleRuntime
      (asMember tt {| body_displayName := "Mine"; body_externalId := None;
                      body_notifyStatus := None |}) sampleWorld
    = (Thrown AUTHORIZATION, sampleWorld)
  ∧ updateProject sampleRuntime
      (asMember {| params_id := "p1" |}
         {| update_displayName := Some "Mine"; update_externalId := None;
            update_notifyStatus := None |}) sampleWorld
    = (Thrown AUTHORIZATION, sampleWorld)
  ∧ deleteProject sampleRuntime (asMember {| params_id := "p1" |} tt) sampleWorld
    = (Thrown AUTHORIZATION, sampleWorld).
Proof.
  apply (project_routes_reject_non_admins sampleRuntime
           {| principal_id := "member"; principal_platform_id := "pl1" |}
           {| userId := "member"; platformRole := OtherRole "MEMBER";
              user_platformId := Some "pl1" |}).
  - vm_compute; reflexivity.
  - discriminate.
Defined.

Lemma admin_passes {Params Body} (request : FastifyRequest Params Body) u w :
  w_users w !! principal_id (principal request) = Some u →
  platformRole u = ADMIN →
  isPlatformAdmin request w = (Ok true, w).
Proof.
  intros Hu Hr.
  unfold isPlatformAdmin, userService_getOneOrFail, mbind, Task_bind, andThen, mret,
    Task_ret, settled.
  rewrite Hu. by rewrite bool_decide_eq_true_2.
Qed.

Lemma getPlatformId_run {Params Body} (request : FastifyRequest Params Body) u w :
  w_users w !! principal_id (principal request) = Some u →
  getPlatformId request w
  = match user_platformId u with
    | None => (Thrown ENTITY_NOT_FOUND, w)
    | Some plat => if bool_decide (plat = "") then (Thrown ENTITY_NOT_FOUND, w) else (Ok plat, w)
    end.
Proof.
  intros Hu.
  unfold getPlatformId, userService_getOneOrFail, mbind, Task_bind, andThen, mret,
    Task_ret, settled, raise.
  rewrite Hu. destruct (user_platformId u) as [plat|]; [|done].
  by destruct (bool_decide (plat = "")).
Qed.

(** X27: the listing route is scoped to the admin's own platform: it answers
    exactly the live projects of [user.platformId], with a null cursor,
    writing to no table; an admin whose [platformId] is missing or empty gets
    ENTITY_NOT_FOUND instead. *)
Theorem listProjects_is_scoped_to_the_admins_platform rt who u w :
  w_users w !! principal_id who = Some u →
  platformRole u = ADMIN →
  match user_platformId u with
  | Some plat =>
      if bool_decide (plat = "")
      then listProjects rt {| principal := who; params := tt; body := tt |} w
           = (Thrown ENTITY_NOT_FOUND, w)
      else ∃ l w',
             listProjects rt {| principal := who; params := tt; body := tt |} w
             = (Ok {| data := l; cursor := None |}, w')
             ∧ sameTables w w'
             ∧ ∀ q, q ∈ project <$> l
                    ↔ (∃ k, w_projects w !! k = Some q)
                      ∧ platformId q = plat ∧ deleted q = None
  | None =>
      listProjects rt {| principal := who; params := tt; body := tt |} w
      = (Thrown ENTITY_NOT_FOUND, w)
  end.
Proof.
  intros Hu Hr.
  assert (Hstep :
    listProjects rt {| principal := who; params := tt; body := tt |} w
    = match user_platformId u with
      | Some plat =>
          if bool_decide (plat = "") then (Thrown ENTITY_NOT_FOUND, w)
          else match cm_list rt plat w with
               | (Ok l, w') => (Ok {| data := l; cursor := None |}, w')
               | (Thrown code, w') => (Thrown code, w')
               end
      | None => (Thrown ENTITY_NOT_FOUND, w)
      end).
  { unfold listProjects. unfold mbind at 1, Task_bind at 1, andThen at 1.
    erewrite admin_passes by first [exact Hu|exact Hr]. cbn [negb].
    unfold mbind at 1, Task_bind at 1, andThen at 1.
    erewrite getPlatformId_run by exact Hu.
    destruct (user_platformId u) as [plat|]; [|done].
    by destruct (bool_decide (plat = "")). }
  rewrite Hstep.
  destruct (user_platformId u) as [plat|]; [|done].
  destruct (bool_decide (plat = "")); [done|].
  destruct (list_run rt plat w) as (l & w' & Hl & Ht & Hmem).
  exists l, w'. rewrite Hl. done.
Qed.

Lemma listProjects_scoped_witness :
  ∃ l w',
    listProjects sampleRuntime (asAdmin tt tt) sampleWorld
    = (Ok {| data := l; cursor := None |}, w')
    ∧ sameTables sampleWorld w'
    ∧ ∀ q, q ∈ project <$> l
           ↔ (∃ k, w_projects sampleWorld !! k = Some q)
             ∧ platformId q = "pl1" ∧ deleted q = None.
Proof.
  apply (listProjects_is_scoped_to_the_admins_platform sampleRuntime
           {| principal_id := "admin"; principal_platform_id := "pl1" |}
           {| userId := "admin"; platformRole := ADMIN; user_platformId := Some "pl1" |}
           sampleWorld).
  - vm_compute; reflexivity.
  - reflexivity.
Defined.

(** X28: the routes that take a project id are not scoped: for any admin, of
    whatever platform, [getProject] answers a live project of any platform,
    and [deleteProject] soft-deletes it and answers success. *)
Theorem routes_by_id_reach_projects_of_any_platform rt who u pid p w :
  w_users w !! principal_id who = Some u →
  platformRole u = ADMIN →
  live w pid p →
  (∃ e w',
      getProject rt {| principal := who; params := {| params_id := pid |}; body := tt |} w
      = (Ok e, w')
      ∧ project e = p ∧ sameTables w w')
  ∧ (∃ w' stamp,
        deleteProject rt {| principal := who; params := {| params_id := pid |}; body := tt |} w
        = (Ok {| success := true |}, w')
        ∧ w_projects w' !! pid = Some (setColumns
                                         {| set_displayName := None; set_externalId := None;
                                            set_notifyStatus := None;
                                            set_deleted := Some stamp |} p)).
Proof.
  intros Hu Hr Hlive. split.
  - unfold getProject. unfold mbind at 1, Task_bind at 1, andThen at 1.
    erewrite admin_passes by first [exact Hu|exact Hr]. cbn [negb params params_id].
    destruct (getById_live rt pid p w Hlive) as (e & w' & Hget & Hp & Ht).
    exists e, w'. unfold mbind, Task_bind, andThen. rewrite Hget. done.
  - unfold deleteProject. unfold mbind at 1, Task_bind at 1, andThen at 1.
    erewrite admin_passes by first [exact Hu|exact Hr]. cbn [negb params params_id].
    unfold mbind, Task_bind, andThen. rewrite (delete_live rt pid p w Hlive).
    do 2 eexists. split; [done|]. cbn [w_projects]. apply lookup_insert_eq.
Qed.

Lemma routes_by_id_witness :
  (∃ e w',
      getProject sampleRuntime (asAdmin {| params_id := "p2" |} tt) sampleWorld = (Ok e, w')
      ∧ project e = sampleProject "p2" "pl2" None ∧ sameTables sampleWorld w')
  ∧ (∃ w' stamp,
        deleteProject sampleRuntime (asAdmin {| params_id := "p2" |} tt) sampleWorld
        = (Ok {| success := true |}, w')
        ∧ w_projects w' !! "p2"
          = Some (setColumns {| set_displayName := None; set_externalId := None;
                                set_notifyStatus := None; set_deleted := Some stamp |}
                    (sampleProject "p2" "pl2" None))).
Proof.
  apply (routes_by_id_reach_projects_of_any_platform sampleRuntime
           {| principal_id := "admin"; principal_platform_id := "pl1" |}
           {| userId := "admin"; platformRole := ADMIN; user_platformId := Some "pl1" |}
           "p2" (sampleProject "p2" "pl2" None) sampleWorld).
  - vm_compute; reflexivity.
  - reflexivity.
  - split; vm_compute; reflexivity.
Defined.

(** X29: [createProject] creates on the admin's own platform with the admin
    as owner, after checking that the platform exists: when it does not, the
    route throws ENTITY_NOT_FOUND and nothing is created, not even an
    identifier is drawn. *)
Theorem createProject_needs_the_admins_platform rt who u plat createBody w :
  w_users w !! principal_id who = Some u →
  platformRole u = ADMIN →
  user_platformId u = Some plat →
  plat ≠ "" →
  (w_platforms w !! plat = None →
   createProject rt {| principal := who; params := tt; body := createBody |} w
   = (Thrown ENTITY_NOT_FOUND, w))
  ∧ (is_Some (w_platforms w !! plat) →
     ∃ e w',
       createProject rt {| principal := who; params := tt; body := createBody |} w
       = (Ok e, w')
       ∧ ownerId (project e) = principal_id who
       ∧ platformId (project e) = plat
       ∧ displayName (project e) = body_displayName createBody
       ∧ w_projects w' !! id (project e) = Some (project e)).
Proof.
  intros Hu Hr Hplat Hne.
  assert (Hstep :
    createProject rt {| principal := who; params := tt; body := createBody |} w
    = match w_platforms w !! plat with
      | Some _ =>
          cm_create rt {| create_ownerId := principal_id who;
                          create_displayName := body_displayName createBody;
                          create_platformId := plat;
                          create_externalId := body_externalId createBody;
                          create_notifyStatus := body_notifyStatus createBody |} w
      | None => (Thrown ENTITY_NOT_FOUND, w)
      end).
  { unfold createProject. unfold mbind at 1, Task_bind at 1, andThen at 1.
    erewrite admin_passes by first [exact Hu|exact Hr]. cbn [negb].
    unfold mbind at 1, Task_bind at 1, andThen at 1.
    erewrite getPlatformId_run by exact Hu.
    rewrite Hplat, bool_decide_eq_false_2 by done.
    unfold mbind at 1, Task_bind at 1, andThen at 1.
    unfold platformService_getOneOrThrow.
    by destruct (w_platforms w !! plat). }
  rewrite Hstep. split.
  - intros Hnone. by rewrite Hnone.
  - intros [platform Hsome]. rewrite Hsome, create_run.
    destruct (enrich_run rt
                (newProjectOf rt
                   {| create_ownerId := principal_id who;
                      create_displayName := body_displayName createBody;
                      create_platformId := plat;
                      create_externalId := body_externalId createBody;
                      create_notifyStatus := body_notifyStatus createBody |} w)
                {| w_users := w_users w; w_platforms := w_platforms w;
                   w_projects :=
                     <[idAt rt (idsDrawn w)
                       := newProjectOf rt
                            {| create_ownerId := principal_id who;
                               create_displayName := body_displayName createBody;
                               create_platformId := plat;
                               create_externalId := body_externalId createBody;
                               create_notifyStatus := body_notifyStatus createBody |} w]>
                       (w_projects w);
                   clockReads := clockReads w; idsDrawn := S (idsDrawn w) |})
      as (e & w' & He & Hp & (_ & _ & Hrows) & _).
    exists e, w'. split; [exact He|]. rewrite Hp, Hrows. cbn [w_projects].
    repeat split. apply lookup_insert_eq.
Qed.

Lemma createProject_witness :
  (w_platforms sampleWorld !! "pl1" = None →
   createProject sampleRuntime
     (asAdmin tt {| body_displayName := "Billing"; body_externalId := None;
                    body_notifyStatus := None |}) sampleWorld
   = (Thrown ENTITY_NOT_FOUND, sampleWorld))
  ∧ (is_Some (w_platforms sampleWorld !! "pl1") →
     ∃ e w',
       createProject sampleRuntime
         (asAdmin tt {| body_displayName := "Billing"; body_externalId := None;
                        body_notifyStatus := None |}) sampleWorld
       = (Ok e, w')
       ∧ ownerId (project e) = "admin"
       ∧ platformId (project e) = "pl1"
       ∧ displayName (project e) = "Billing"
       ∧ w_projects w' !! id (project e) = Some (project e)).
Proof.
  apply (createProject_needs_the_admins_platform sampleRuntime
           {| principal_id := "admin"; principal_platform_id := "pl1" |}
           {| userId := "admin"; platformRole := ADMIN; user_platformId := Some "pl1" |}
           "pl1"
           {| body_displayName := "Billing"; body_externalId := None;
              body_notifyStatus := None |} sampleWorld).
  - vm_compute; reflexivity.
  - reflexivity.
  - reflexivity.
  - discriminate.
Defined.
End ProjectsProperties.
